(** * asa_objectified: Cisco ASA configuration objects and their CLI rendering

    A shallow embedding of [asa_objectified/asa_objects.py].  Every class of
    the module becomes a Rocq [Module] holding a record for the instance
    attributes and one function per method.  Methods that assign attributes
    take the instance and return the updated instance; methods that may raise
    return a [result]. *)

From Stdlib Require Import ZArith String Ascii List Bool Lia.
From Stdlib Require Import DecimalString.
Import ListNotations.

Local Open Scope string_scope.
Local Open Scope Z_scope.

(** ** The fragment of the Python runtime the module relies on *)

(** Exceptions.  Those raised by the module itself carry their message; the
    ones raised by the interpreter or by the standard library carry none,
    except [AttributeError], which records the missing attribute.
    [AddressValueError] and [NetmaskValueError] are the two subclasses of
    [ValueError] defined by the standard [ipaddress] module. *)
Inductive exn : Type :=
| ValueError (msg : string)
| AddressValueError
| NetmaskValueError
| TypeError
| AssertionError (msg : string)
| AttributeError (attr : string)
| RecursionError
| NotImplementedError.

Inductive result (A : Type) : Type :=
| Ok (a : A)
| Raise (e : exn).

Arguments Ok {A} a.
Arguments Raise {A} e.

Definition bind {A B : Type} (m : result A) (k : A -> result B) : result B :=
  match m with
  | Ok a => k a
  | Raise e => Raise e
  end.

Notation "x <- m ;; k" := (bind m (fun x => k))
  (at level 61, m at next level, right associativity).
Notation "m ;;; k" := (bind m (fun _ => k))
  (at level 61, right associativity).

(** [assert cond, msg] *)
Definition py_assert (cond : bool) (msg : string) : result unit :=
  if cond then Ok tt else Raise (AssertionError msg).

(** Reading an instance attribute that may never have been assigned. *)
Definition getattr {A : Type} (attr : string) (slot : option A) : result A :=
  match slot with
  | Some a => Ok a
  | None => Raise (AttributeError attr)
  end.

(** The values callers pass where the module does not fix a type: [None],
    an [int] or a [str].  A [str] is modelled by a Rocq string of ASCII
    characters: the strings for which [isascii] below holds.  The string
    methods that consult the Unicode tables ([isnumeric], [upper]) are
    modelled on these strings only; a statement that depends on what they
    return takes [isascii] as a hypothesis. *)
Inductive pyval : Type :=
| VNone
| VInt (z : Z)
| VStr (s : string).

(** [str(z)] for an [int]. *)
Definition str_of_int (z : Z) : string := NilZero.string_of_int (Z.to_int z).
Arguments str_of_int : simpl never.

(** [str(v)], which is also what an f-string field [{v}] renders. *)
Definition py_str (v : pyval) : string :=
  match v with
  | VNone => "None"
  | VInt z => str_of_int z
  | VStr s => s
  end.

(** Truth value of an object, as tested by [if v], [not v] and [a and b]. *)
Definition truthy (v : pyval) : bool :=
  match v with
  | VNone => false
  | VInt z => negb (z =? 0)
  | VStr s => negb (s =? "")%string
  end.

(** Truth value of [None]-or-[str] and of [None]-or-[int] attributes. *)
Definition truthy_str (v : option string) : bool :=
  match v with
  | None => false
  | Some s => negb (s =? "")%string
  end.

Definition truthy_int (v : option Z) : bool :=
  match v with
  | None => false
  | Some z => negb (z =? 0)
  end.

(** f-string rendering of a [None]-or-[int] and of a [None]-or-[str]. *)
Definition fmt_int (v : option Z) : string :=
  match v with
  | None => "None"
  | Some z => str_of_int z
  end.

Definition fmt_str (v : option string) : string :=
  match v with
  | None => "None"
  | Some s => s
  end.

Definition is_digit (c : ascii) : bool :=
  let n := N_of_ascii c in ((48 <=? n) && (n <=? 57))%N.

Fixpoint all_digits (s : string) : bool :=
  match s with
  | EmptyString => true
  | String c s' => is_digit c && all_digits s'
  end.

(** [s.isnumeric()] on an ASCII string, where it agrees with
    [s.isascii() and s.isdigit()]: the string is not empty and holds decimal
    digits only.  (Off ASCII the method follows the Unicode tables, which
    know further numeric characters; these are not modelled.) *)
Definition isnumeric (s : string) : bool :=
  match s with
  | EmptyString => false
  | _ => all_digits s
  end.

(** [s.isascii()]: every character is below 128. *)
Fixpoint isascii (s : string) : bool :=
  match s with
  | EmptyString => true
  | String c s' => (N_of_ascii c <? 128)%N && isascii s'
  end.

Definition digit_value (c : ascii) : Z := Z.of_N (N_of_ascii c) - 48.

Fixpoint int_of_digits_acc (acc : Z) (s : string) : Z :=
  match s with
  | EmptyString => acc
  | String c s' => int_of_digits_acc (10 * acc + digit_value c) s'
  end.

(** [int(s)] for a string of decimal digits. *)
Definition int_of_digits (s : string) : Z := int_of_digits_acc 0 s.

Definition upper_char (c : ascii) : ascii :=
  let n := N_of_ascii c in
  if ((97 <=? n) && (n <=? 122))%N then ascii_of_N (n - 32) else c.

(** [s.upper()] on an ASCII string: the letters a-z become A-Z, every other
    character stays.  (Off ASCII the method follows the Unicode case
    mappings, which are not modelled.) *)
Fixpoint upper (s : string) : string :=
  match s with
  | EmptyString => EmptyString
  | String c s' => String (upper_char c) (upper s')
  end.

(** [s.split(sep)] for a one-character separator: never an empty list. *)
Fixpoint split (sep : ascii) (s : string) : list string :=
  match s with
  | EmptyString => [EmptyString]
  | String c s' =>
      if Ascii.eqb c sep then EmptyString :: split sep s'
      else match split sep s' with
           | piece :: pieces => String c piece :: pieces
           | [] => [String c EmptyString]
           end
  end.

(** [sep.join(parts)] *)
Fixpoint join (sep : string) (parts : list string) : string :=
  match parts with
  | [] => EmptyString
  | [p] => p
  | p :: ps => p ++ sep ++ join sep ps
  end.

(** ** The standard [ipaddress] module

    The source imports [IPv4Network] from the standard library; the library
    is not part of src/.  The module below models the part of it that the
    source reaches, after section 4.1 of the specification and the
    documented behaviour of the class. *)

Module ipaddress.

(** Modelled from the spec: the two constants of the IPv4 classes of
    [ipaddress], which is not under src/. *)
Definition _ALL_ONES : Z := 4294967295.
Definition _max_prefixlen : Z := 32.

(** Modelled from the spec: an [IPv4Network] value of [ipaddress], which is
    not under src/: the packed network address and the prefix length. *)
Record IPv4Network_t : Type := mkIPv4Network {
  network_address : Z;
  prefixlen : Z
}.

(** Modelled from the spec: the octet parser of [ipaddress], which is not
    under src/.  One dotted-quad field: decimal digits only, at most three
    of them, no leading zero, at most 255. *)
Definition _parse_octet (octet_str : string) : option Z :=
  if negb (isnumeric octet_str) then None
  else if (3 <? String.length octet_str)%nat then None
  else if negb (octet_str =? "0")%string && String.prefix "0" octet_str then None
  else
    let octet_int := int_of_digits octet_str in
    if 255 <? octet_int then None else Some octet_int.

(** Modelled from the spec: [int.from_bytes(map(_parse_octet, octets), 'big')]
    in [ipaddress], which is not under src/. *)
Fixpoint _parse_octets (acc : Z) (octets : list string) : option Z :=
  match octets with
  | [] => Some acc
  | o :: os =>
      match _parse_octet o with
      | Some b => _parse_octets (256 * acc + b) os
      | None => None
      end
  end.

(** Modelled from the spec: the address parser of [ipaddress], which is not
    under src/: four octets separated by dots. *)
Definition _ip_int_from_string (ip_str : string) : result Z :=
  if (ip_str =? "")%string then Raise AddressValueError
  else
    let octets := split "." ip_str in
    if negb (length octets =? 4)%nat then Raise AddressValueError
    else match _parse_octets 0 octets with
         | Some ip_int => Ok ip_int
         | None => Raise AddressValueError
         end.

(** Modelled from the spec: [IPv4Address(address)] of [ipaddress], which is
    not under src/, as the packed integer. *)
Definition IPv4Address (address : pyval) : result Z :=
  match address with
  | VInt z =>
      if (z <? 0) || (_ALL_ONES <? z) then Raise AddressValueError else Ok z
  | _ =>
      let addr_str := py_str address in
      if (1 <? length (split "/" addr_str))%nat then Raise AddressValueError
      else _ip_int_from_string addr_str
  end.

(** Modelled from the spec: [int.bit_length], used by [ipaddress], which is
    not under src/. *)
Definition bit_length (z : Z) : Z :=
  if z =? 0 then 0 else Z.log2 (Z.abs z) + 1.

(** Modelled from the spec: the count of trailing zero bits in [ipaddress],
    which is not under src/. *)
Definition _count_righthand_zero_bits (number bits : Z) : Z :=
  if number =? 0 then bits
  else Z.min bits (bit_length (Z.land (Z.lnot number) (number - 1))).

(** Modelled from the spec: the netmask of a prefix length in [ipaddress],
    which is not under src/. *)
Definition _ip_int_from_prefix (prefixlen : Z) : Z :=
  Z.lxor _ALL_ONES (Z.shiftr _ALL_ONES prefixlen).

(** Modelled from the spec: the prefix length of a /1*0*/ bit pattern, if it
    is one, as [ipaddress], which is not under src/, computes it. *)
Definition _prefix_from_ip_int (ip_int : Z) : option Z :=
  let trailing_zeroes := _count_righthand_zero_bits ip_int _max_prefixlen in
  let prefixlen := _max_prefixlen - trailing_zeroes in
  let leading_ones := Z.shiftr ip_int trailing_zeroes in
  let all_ones := Z.shiftl 1 prefixlen - 1 in
  if leading_ones =? all_ones then Some prefixlen else None.

(** Modelled from the spec: the prefix length written in decimal, 0..32, as
    [ipaddress], which is not under src/, reads it. *)
Definition _prefix_from_prefix_string (prefixlen_str : string) : option Z :=
  if negb (isnumeric prefixlen_str) then None
  else
    let prefixlen := int_of_digits prefixlen_str in
    if (0 <=? prefixlen) && (prefixlen <=? _max_prefixlen) then Some prefixlen
    else None.

(** Modelled from the spec: a netmask or, failing that, a hostmask in
    dotted-quad form, as [ipaddress], which is not under src/, reads it. *)
Definition _prefix_from_ip_string (ip_str : string) : result Z :=
  match _ip_int_from_string ip_str with
  | Raise _ => Raise NetmaskValueError
  | Ok ip_int =>
      match _prefix_from_ip_int ip_int with
      | Some prefixlen => Ok prefixlen
      | None =>
          match _prefix_from_ip_int (Z.lxor ip_int _ALL_ONES) with
          | Some prefixlen => Ok prefixlen
          | None => Raise NetmaskValueError
          end
      end
  end.

(** Modelled from the spec: the mask part of a network string in
    [ipaddress], which is not under src/. *)
Definition _make_netmask (arg : string) : result Z :=
  match _prefix_from_prefix_string arg with
  | Some prefixlen => Ok prefixlen
  | None => _prefix_from_ip_string arg
  end.

(** Modelled from the spec: the standard-library class
    [ipaddress.IPv4Network], which the source imports, is not part of
    src/.  Section 4.1 of the specification gives its contract (the forms
    [ip/netmask], [ip/CIDR] and [ip] alone, the latter defaulting to /32;
    a parse failure raises); the model follows it and the documented
    behaviour of the class in its default strict mode: at most one [/],
    four decimal octets, a prefix length in 0..32 or a dotted-quad netmask
    or hostmask, and no host bits set beyond the prefix. *)
Definition IPv4Network (address : pyval) : result IPv4Network_t :=
  match address with
  | VInt _ =>
      addr <- IPv4Address address ;;
      Ok (mkIPv4Network addr _max_prefixlen)
  | _ =>
      match split "/" (py_str address) with
      | [addr_str] =>
          addr <- IPv4Address (VStr addr_str) ;;
          Ok (mkIPv4Network addr _max_prefixlen)
      | [addr_str; mask_str] =>
          addr <- IPv4Address (VStr addr_str) ;;
          prefixlen <- _make_netmask mask_str ;;
          if Z.land addr (_ip_int_from_prefix prefixlen) =? addr
          then Ok (mkIPv4Network addr prefixlen)
          else Raise (ValueError "has host bits set")
      | _ => Raise AddressValueError
      end
  end.

(** Modelled from the spec: the [netmask] attribute of an [IPv4Network] of
    [ipaddress], which is not under src/. *)
Definition netmask (net : IPv4Network_t) : Z :=
  _ip_int_from_prefix (prefixlen net).

(** Modelled from the spec: [str(address)] for an address of [ipaddress],
    which is not under src/: the dotted quad. *)
Definition str_of_address (ip_int : Z) : string :=
  join "." (map (fun shift => str_of_int (Z.land (Z.shiftr ip_int shift) 255))
                [24; 16; 8; 0]).

Arguments IPv4Network : simpl never.
Arguments netmask : simpl never.
Arguments str_of_address : simpl never.

End ipaddress.

(** ** class NetworkObject *)

Module NetworkObject.

Import ipaddress.

Inductive ObjectType : Type := RANGE | HOST | NETWORK | FQDN.

(** Instance attributes.  [description], [name] and [type] are assigned by
    every constructor call; [ip], [end_ip] and [fqdn] only by the
    initializer of the matching type, so they may be missing ([None] in the
    record; reading them then raises [AttributeError]). *)
Record t : Type := mk {
  description : option string;
  name : option string;
  type : option ObjectType;
  ip : option IPv4Network_t;
  end_ip : option IPv4Network_t;
  fqdn : option pyval
}.

Definition set_name (self : t) (v : option string) : t :=
  mk (description self) v (type self) (ip self) (end_ip self) (fqdn self).
Definition set_type (self : t) (v : option ObjectType) : t :=
  mk (description self) (name self) v (ip self) (end_ip self) (fqdn self).
Definition set_ip (self : t) (v : IPv4Network_t) : t :=
  mk (description self) (name self) (type self) (Some v) (end_ip self) (fqdn self).
Definition set_end_ip (self : t) (v : IPv4Network_t) : t :=
  mk (description self) (name self) (type self) (ip self) (Some v) (fqdn self).
Definition set_fqdn (self : t) (v : pyval) : t :=
  mk (description self) (name self) (type self) (ip self) (end_ip self) (Some v).

(** Assigns [self.name] and returns it. *)
Definition generate_name (self : t) : result (string * t) :=
  match type self with
  | Some HOST =>
      net <- getattr "ip" (ip self) ;;
      let n := "HOST_" ++ str_of_address (network_address net) in
      Ok (n, set_name self (Some n))
  | Some NETWORK =>
      net <- getattr "ip" (ip self) ;;
      let n := "NET_" ++ str_of_address (network_address net)
                      ++ "_" ++ str_of_int (prefixlen net) in
      Ok (n, set_name self (Some n))
  | Some RANGE =>
      net <- getattr "ip" (ip self) ;;
      end_net <- getattr "end_ip" (end_ip self) ;;
      let n := "RANGE_" ++ str_of_address (network_address net)
                        ++ "-" ++ str_of_address (network_address end_net) in
      Ok (n, set_name self (Some n))
  | Some FQDN =>
      d <- getattr "fqdn" (fqdn self) ;;
      let n := "FQDN_" ++ py_str d in
      Ok (n, set_name self (Some n))
  | None =>
      Raise (ValueError "NetworkObject not set to type when generating name.")
  end.

(** [if not self.name: self.generate_name()] *)
Definition name_if_unset (self : t) : result t :=
  if negb (truthy_str (name self))
  then r <- generate_name self ;; Ok (snd r)
  else Ok self.

Definition init_fqdn_object (self : t) (fqdn : pyval) : result t :=
  let self := set_fqdn self fqdn in
  let self := set_type self (Some FQDN) in
  name_if_unset self.

Definition init_range_object (self : t) (ip end_ip : pyval) : result t :=
  net <- IPv4Network ip ;;
  let self := set_ip self net in
  end_net <- IPv4Network end_ip ;;
  let self := set_end_ip self end_net in
  let self := set_type self (Some RANGE) in
  name_if_unset self.

(** The first block of [init_host_or_net_object]: the three ways of
    building the network value from the supplied arguments. *)
Definition convert_supplied (ip netmask CIDR : pyval) : result IPv4Network_t :=
  if truthy netmask then IPv4Network (VStr (py_str ip ++ "/" ++ py_str netmask))
  else if truthy CIDR then IPv4Network (VStr (py_str ip ++ "/" ++ py_str CIDR))
  else IPv4Network ip.

(** Returns [self.ip] along with the updated instance. *)
Definition init_host_or_net_object (self : t) (ip netmask CIDR : pyval)
  : result (IPv4Network_t * t) :=
  net <- convert_supplied ip netmask CIDR ;;
  let self := set_ip self net in
  let self :=
    if prefixlen net =? 32 then set_type self (Some HOST)
    else set_type self (Some NETWORK) in
  self <- name_if_unset self ;;
  Ok (net, self).

Definition __init__ (ob_type : option ObjectType) (ip netmask : pyval)
    (description : option string) (CIDR : pyval) (name : option string)
    (fqdn end_ip : pyval) : result t :=
  let self := mk description name ob_type None None None in
  match type self with
  | None => Ok self
  | Some HOST | Some NETWORK =>
      r <- init_host_or_net_object self ip netmask CIDR ;; Ok (snd r)
  | Some RANGE => init_range_object self ip end_ip
  | Some FQDN => init_fqdn_object self fqdn
  end.

Definition cli_definition (self : t) : result (string * t) :=
  self <- name_if_unset self ;;
  Ok ("object network " ++ fmt_str (name self), self).

Definition cli_attributes (self : t) : result string :=
  match type self with
  | None => Raise (ValueError "No value set for object type.")
  | Some HOST =>
      net <- getattr "ip" (ip self) ;;
      Ok (" host " ++ str_of_address (network_address net))
  | Some NETWORK =>
      net <- getattr "ip" (ip self) ;;
      Ok (" subnet " ++ str_of_address (network_address net)
                     ++ " " ++ str_of_address (netmask net))
  | Some RANGE =>
      net <- getattr "ip" (ip self) ;;
      end_net <- getattr "end_ip" (end_ip self) ;;
      Ok (" range " ++ str_of_address (network_address net)
                    ++ " " ++ str_of_address (network_address end_net))
  | Some FQDN =>
      d <- getattr "fqdn" (fqdn self) ;;
      Ok (" fqdn " ++ py_str d)
  end.

(** The methods [cli_full] mentions by name. *)
Inductive method : Type := m_cli_definition | m_cli_attributes.

(** What a list built by [cli_full] holds: a [str], or a method object
    bound to the instance (the value of [self.m] when [m] is not called). *)
Inductive element : Type :=
| Str (s : string)
| BoundMethod (m : method).

Definition cli_full (self : t) : list element :=
  let rule_text := [BoundMethod m_cli_definition; BoundMethod m_cli_attributes] in
  let rule_text :=
    if truthy_str (description self)
    then (rule_text ++ [Str (" description " ++ fmt_str (description self))])%list
    else rule_text in
  (rule_text ++ [Str "!"])%list.

(** The [netmask] property. *)
Definition netmask (self : t) : result Z :=
  net <- getattr "ip" (ip self) ;;
  Ok (ipaddress.netmask net).

End NetworkObject.

(** ** class _ServiceObject *)

Module _ServiceObject.

Inductive PortSelecterType : Type :=
| SINGLE | RANGE | LESS_THAN | GREATER_THAN | NOT_EQUALS.

(** The [.value] of an enumeration member. *)
Definition value (p : PortSelecterType) : string :=
  match p with
  | SINGLE => "eq"
  | RANGE => "range"
  | LESS_THAN => "lt"
  | GREATER_THAN => "gt"
  | NOT_EQUALS => "neq"
  end.

(** What a concrete subclass supplies: the [_name] slot, and the two
    methods the base class leaves to [NotImplementedError]. *)
Class Subclass (T : Type) : Type := {
  _name : T -> option string;
  generate_name : T -> result (string * T);
  cli_attributes : T -> result string
}.

(** The getter of the [name] property, over the [generate_name] that the
    instance resolves to. *)
Definition name_fget {T : Type} (_name : T -> option string)
    (generate_name : T -> result (string * T)) (self : T) : result (string * T) :=
  if truthy_str (_name self) then Ok (fmt_str (_name self), self)
  else generate_name self.

Section Inherited.
Context {T : Type} `{Subclass T}.

(** Reading [self.name]. *)
Definition name (self : T) : result (string * T) :=
  name_fget _name generate_name self.

Definition cli_definition (self : T) : result (string * T) :=
  r <- name self ;;
  self <- (if negb (truthy (VStr (fst r)))
           then g <- generate_name (snd r) ;; Ok (snd g)
           else Ok (snd r)) ;;
  r <- name self ;;
  Ok ("object service " ++ fst r, snd r).

Definition cli_full (self : T) : result (list string * T) :=
  d <- cli_definition self ;;
  a <- cli_attributes (snd d) ;;
  Ok ([fst d; a; "!"], snd d).
End Inherited.

(** A [property] object: its getter and, once [.setter] has been applied,
    its setter. *)
Record property (T V : Type) : Type := Property {
  fget : T -> V;
  fset : option (T -> V -> result T)
}.
Arguments Property {T V} fget fset.
Arguments fget {T V} p self.
Arguments fset {T V} p.

(** [@property] applied to a getter. *)
Definition property_of {T V : Type} (getter : T -> V) : property T V :=
  Property getter None.

(** [p.setter(f)]: a copy of [p] whose setter is [f]. *)
Definition setter {T V : Type} (p : property T V) (f : T -> V -> result T)
  : property T V :=
  Property (fget p) (Some f).

(** The assignment [self.attr = v] through the property bound to [attr]. *)
Definition assign {T V : Type} (p : property T V) (self : T) (v : V) : result T :=
  match fset p with
  | Some f => f self v
  | None => Raise (AttributeError "can't set attribute")
  end.

End _ServiceObject.

(** ** class _TcpOrUdpObject and its subclasses TcpObject and UdpObject *)

Module _TcpOrUdpObject.

Import _ServiceObject.

(** The two concrete subclasses; each only sets [_OBJECT_TYPE]. *)
Inductive subclass : Type := TcpObject | UdpObject.

Definition _OBJECT_TYPE (cls : subclass) : string :=
  match cls with
  | TcpObject => "tcp"
  | UdpObject => "udp"
  end.

Record t : Type := mk {
  cls : subclass;
  _name : option string;
  source_port_selecter_type : option PortSelecterType;
  _source_port : option Z;
  _source_end_port : option Z;
  dest_port_selecter_type : option PortSelecterType;
  _dest_port : option Z;
  _dest_end_port : option Z
}.

Definition set__name (self : t) (v : option string) : t :=
  mk (cls self) v (source_port_selecter_type self) (_source_port self)
     (_source_end_port self) (dest_port_selecter_type self) (_dest_port self)
     (_dest_end_port self).
Definition set_source_port_selecter_type (self : t) (v : option PortSelecterType) : t :=
  mk (cls self) (_name self) v (_source_port self)
     (_source_end_port self) (dest_port_selecter_type self) (_dest_port self)
     (_dest_end_port self).
Definition set__source_port (self : t) (v : option Z) : t :=
  mk (cls self) (_name self) (source_port_selecter_type self) v
     (_source_end_port self) (dest_port_selecter_type self) (_dest_port self)
     (_dest_end_port self).
Definition set__source_end_port (self : t) (v : option Z) : t :=
  mk (cls self) (_name self) (source_port_selecter_type self) (_source_port self)
     v (dest_port_selecter_type self) (_dest_port self)
     (_dest_end_port self).
Definition set_dest_port_selecter_type (self : t) (v : option PortSelecterType) : t :=
  mk (cls self) (_name self) (source_port_selecter_type self) (_source_port self)
     (_source_end_port self) v (_dest_port self)
     (_dest_end_port self).
Definition set__dest_port (self : t) (v : option Z) : t :=
  mk (cls self) (_name self) (source_port_selecter_type self) (_source_port self)
     (_source_end_port self) (dest_port_selecter_type self) v
     (_dest_end_port self).
Definition set__dest_end_port (self : t) (v : option Z) : t :=
  mk (cls self) (_name self) (source_port_selecter_type self) (_source_port self)
     (_source_end_port self) (dest_port_selecter_type self) (_dest_port self)
     v.

Definition _check_port (port : option Z) : result bool :=
  match port with
  | None => Ok false
  | Some p =>
      if negb ((0 <=? p) && (p <=? 65535))
      then Raise (ValueError "Port value is out of range")
      else Ok true
  end.

(** The class body binds each port name twice: first to the property made
    of the getter, then to what the [.setter] decorator returns. *)
Definition source_port_fget (self : t) : option Z := _source_port self.
Definition source_port_fset (self : t) (port : option Z) : result t :=
  _check_port port ;;; Ok (set__source_port self port).
Definition source_port : property t (option Z) :=
  setter (property_of source_port_fget) source_port_fset.

Definition source_end_port_fget (self : t) : option Z := _source_end_port self.
Definition source_end_port_fset (self : t) (port : option Z) : result t :=
  _check_port port ;;; Ok (set__source_end_port self port).
Definition source_end_port : property t (option Z) :=
  setter (property_of source_end_port_fget) source_end_port_fset.

Definition dest_port_fget (self : t) : option Z := _dest_port self.
Definition dest_port_fset (self : t) (port : option Z) : result t :=
  _check_port port ;;; Ok (set__dest_port self port).
Definition dest_port : property t (option Z) :=
  setter (property_of dest_port_fget) dest_port_fset.

(** [dest_end_port] is first bound to the property of its own getter; the
    decorator of its setter is written [@dest_port.setter], so the final
    binding is a copy of the [dest_port] property with the new setter. *)
Definition dest_end_port_fget (self : t) : option Z := _dest_end_port self.
Definition dest_end_port_0 : property t (option Z) := property_of dest_end_port_fget.
Definition dest_end_port_fset (self : t) (port : option Z) : result t :=
  _check_port port ;;; Ok (set__dest_end_port self port).
Definition dest_end_port : property t (option Z) :=
  setter dest_port dest_end_port_fset.

Definition __init__ (cls : subclass)
    (source_port_selecter_type : option PortSelecterType)
    (source_port source_end_port : option Z)
    (dest_port_selecter_type : option PortSelecterType)
    (dest_port dest_end_port : option Z)
    (name : option string) : result t :=
  let self := mk cls None None None None None None None in
  let self := set__name self name in
  let self := set_source_port_selecter_type self source_port_selecter_type in
  self <- assign _TcpOrUdpObject.source_port self source_port ;;
  self <- assign _TcpOrUdpObject.source_end_port self source_end_port ;;
  let self := set_dest_port_selecter_type self dest_port_selecter_type in
  self <- assign _TcpOrUdpObject.dest_port self dest_port ;;
  assign _TcpOrUdpObject.dest_end_port self dest_end_port.

(** A call [cls(...)] with keyword arguments: [known] are those named in
    the signature of [__init__] (the pairs of a parameter and its default
    included), [extra] any further ones.  The signature has no [**kwargs],
    so binding a further keyword fails before the body runs. *)
Definition call (cls : subclass)
    (source_port_selecter_type : option PortSelecterType)
    (source_port source_end_port : option Z)
    (dest_port_selecter_type : option PortSelecterType)
    (dest_port dest_end_port : option Z)
    (name : option string)
    (extra : list (string * pyval)) : result t :=
  match extra with
  | [] => __init__ cls source_port_selecter_type source_port source_end_port
                   dest_port_selecter_type dest_port dest_end_port name
  | _ :: _ => Raise TypeError
  end.

Definition generate_name (self : t) : result (string * t) :=
  let name := "SVC_" ++ upper (_OBJECT_TYPE (cls self)) in
  let name :=
    match source_port_selecter_type self with
    | None => name
    | Some RANGE =>
        name ++ "_SRC_RANGE_" ++ fmt_int (fget source_port self)
             ++ "-" ++ fmt_int (fget source_end_port self)
    | Some sel =>
        name ++ "_SRC_" ++ upper (value sel) ++ "_" ++ fmt_int (fget source_port self)
    end in
  let name :=
    match dest_port_selecter_type self with
    | None => name
    | Some RANGE =>
        name ++ "_DEST_RANGE_" ++ fmt_int (fget dest_port self)
             ++ "-" ++ fmt_int (fget dest_end_port self)
    | Some sel =>
        name ++ "_DEST_" ++ upper (value sel) ++ "_" ++ fmt_int (fget dest_port self)
    end in
  Ok (name, set__name self (Some name)).

(** [(not sel) or (sel in _ServiceObject.PortSelecterType)] *)
Definition selecter_valid (sel : option PortSelecterType) : bool :=
  match sel with
  | None => true
  | Some _ => true
  end.

(** The block of [cli_attributes] that sets [source]. *)
Definition source_clause (self : t) : result string :=
  match source_port_selecter_type self with
  | None => Ok ""
  | Some RANGE =>
      py_assert (truthy_int (fget source_port self)
                 && truthy_int (fget source_end_port self))
                "Range starting or ending port not defined" ;;;
      Ok (" source " ++ value RANGE ++ " " ++ fmt_int (fget source_port self)
                     ++ " " ++ fmt_int (fget source_end_port self))
  | Some sel =>
      py_assert (truthy_int (fget source_port self)) "Source port not defined" ;;;
      Ok (" source " ++ value sel ++ " " ++ fmt_int (fget source_port self))
  end.

(** The block of [cli_attributes] that sets [dest]. *)
Definition dest_clause (self : t) : result string :=
  match dest_port_selecter_type self with
  | None => Ok ""
  | Some RANGE =>
      py_assert (truthy_int (fget dest_port self)
                 && truthy_int (fget dest_end_port self))
                "Range starting or ending port not defined" ;;;
      Ok (" source " ++ value RANGE ++ " " ++ fmt_int (fget dest_port self)
                     ++ " " ++ fmt_int (fget dest_end_port self))
  | Some sel =>
      py_assert (truthy_int (fget dest_port self)) "Destination port not defined" ;;;
      Ok (" destination " ++ value sel ++ " " ++ fmt_int (fget dest_port self))
  end.

Definition cli_attributes (self : t) : result string :=
  py_assert (selecter_valid (source_port_selecter_type self)) "" ;;;
  py_assert (selecter_valid (dest_port_selecter_type self)) "" ;;;
  source <- source_clause self ;;
  dest <- dest_clause self ;;
  Ok ("service " ++ _OBJECT_TYPE (cls self) ++ source ++ dest).

#[export] Instance subclass_of_ServiceObject : Subclass t := {
  _ServiceObject._name := _name;
  _ServiceObject.generate_name := generate_name;
  _ServiceObject.cli_attributes := cli_attributes
}.

(** The members both subclasses inherit from [_ServiceObject]. *)
Definition name (self : t) : result (string * t) :=
  _ServiceObject.name self.

Definition cli_definition (self : t) : result (string * t) :=
  _ServiceObject.cli_definition self.

Definition cli_full (self : t) : result (list string * t) :=
  _ServiceObject.cli_full self.

End _TcpOrUdpObject.

(** ** class IcmpObject *)

Module IcmpObject.

Import _ServiceObject.

(** [icmp_code] is declared an [int] and may be [None]; [icmp_type] is
    declared [any]: [None], an [int] or a [str]. *)
Record t : Type := mk {
  _name : option string;
  _icmp_code : option Z;
  _icmp_type : pyval
}.

Definition set__name (self : t) (v : option string) : t :=
  mk v (_icmp_code self) (_icmp_type self).
Definition set__icmp_code (self : t) (v : option Z) : t :=
  mk (_name self) v (_icmp_type self).
Definition set__icmp_type (self : t) (v : pyval) : t :=
  mk (_name self) (_icmp_code self) v.

(** [int(value)] for a [None]-or-[int]. *)
Definition int_of_code (value : option Z) : result Z :=
  match value with
  | None => Raise TypeError
  | Some z => Ok z
  end.

(** [int(value)].  On a [str] only strings of decimal digits are read; the
    one call below is reached by no other string. *)
Definition py_int (value : pyval) : result Z :=
  match value with
  | VNone => Raise TypeError
  | VInt z => Ok z
  | VStr s =>
      if isnumeric s then Ok (int_of_digits s)
      else Raise (ValueError "invalid literal for int() with base 10")
  end.

Definition isinstance_str (value : pyval) : bool :=
  match value with
  | VStr _ => true
  | _ => false
  end.

Definition _verify_icmp_code (value : option Z) (raise_error : bool) : result bool :=
  n <- int_of_code value ;;
  if (1 <=? n) && (n <=? 255) then Ok true
  else if raise_error then Raise (ValueError "The given ICMP code is invalid")
  else Ok false.

Definition _verify_icmp_type (value : pyval) (raise_error : bool) : result bool :=
  if isinstance_str value && negb (isnumeric (py_str value)) then Ok true
  else if negb (truthy value) then Raise (ValueError "ICMP Type not set")
  else
    n <- py_int value ;;
    if (0 <=? n) && (n <=? 255) then Ok true
    else if raise_error then Raise (ValueError "The given ICMP type is invalid")
    else Ok false.

(** The [name] setter inherited from [_ServiceObject]. *)
Definition name_fset (self : t) (name : option string) : result t :=
  Ok (set__name self name).

Definition icmp_code_fget (self : t) : option Z := _icmp_code self.
Definition icmp_code_fset (self : t) (value : option Z) : result t :=
  match value with
  | None => Ok (set__icmp_code self None)
  | Some _ =>
      valid <- _verify_icmp_code value true ;;
      if valid then Ok (set__icmp_code self value) else Ok self
  end.
Definition icmp_code : property t (option Z) :=
  setter (property_of icmp_code_fget) icmp_code_fset.

Definition icmp_type_fget (self : t) : pyval := _icmp_type self.
Definition icmp_type_fset (self : t) (value : pyval) : result t :=
  match value with
  | VNone => Ok (set__icmp_type self VNone)
  | _ =>
      valid <- _verify_icmp_type value true ;;
      if valid then Ok (set__icmp_type self value) else Ok self
  end.
Definition icmp_type : property t pyval :=
  setter (property_of icmp_type_fget) icmp_type_fset.

Definition __init__ (name : option string) (icmp_type : pyval) (icmp_code : option Z)
  : result t :=
  let self := mk None None VNone in
  self <- name_fset self name ;;
  self <- assign IcmpObject.icmp_code self icmp_code ;;
  assign IcmpObject.icmp_type self icmp_type.

(** [generate_name] ends by reading the [name] property, whose getter calls
    [generate_name] again when [_name] is empty.  [depth] bounds the nesting
    of these calls, as the recursion limit of the interpreter does. *)
Fixpoint generate_name_within (depth : nat) (self : t) : result (string * t) :=
  match depth with
  | O => Raise RecursionError
  | S depth' =>
      py_assert (truthy (fget icmp_type self))
                "ICMP type attribute unset during name generation" ;;;
      let name := "SVC_ICMP_TYPE_" ++ py_str (fget icmp_type self) in
      let name :=
        if truthy_int (fget icmp_code self)
        then name ++ "_CODE_" ++ fmt_int (fget icmp_code self)
        else name in
      self <- name_fset self (Some (upper name)) ;;
      name_fget _name (generate_name_within depth') self
  end.

Definition recursion_limit : nat := 1000.

Definition generate_name (self : t) : result (string * t) :=
  generate_name_within recursion_limit self.

Definition cli_attributes (self : t) : result string :=
  _verify_icmp_type (fget icmp_type self) true ;;;
  _verify_icmp_code (_icmp_code self) true ;;;
  let c := " service icmp " ++ py_str (fget icmp_type self) in
  let c :=
    if truthy_int (fget icmp_code self)
    then c ++ " " ++ fmt_int (fget icmp_code self)
    else c in
  Ok c.

#[export] Instance subclass_of_ServiceObject : Subclass t := {
  _ServiceObject._name := _name;
  _ServiceObject.generate_name := generate_name;
  _ServiceObject.cli_attributes := cli_attributes
}.

(** Reading [self.name]: the property inherited from the base class. *)
Definition name (self : t) : result (string * t) :=
  _ServiceObject.name self.

(** [cli_definition] and [cli_full] defer to the base class. *)
Definition cli_definition (self : t) : result (string * t) :=
  _ServiceObject.cli_definition self.

Definition cli_full (self : t) : result (list string * t) :=
  _ServiceObject.cli_full self.

End IcmpObject.

(** ** Notions the statements below use *)

(** The first character of a line. *)
Definition first_char (s : string) : option ascii :=
  match s with
  | EmptyString => None
  | String c _ => Some c
  end.

Fixpoint contains_char (c : ascii) (s : string) : bool :=
  match s with
  | EmptyString => false
  | String c' s' => Ascii.eqb c' c || contains_char c s'
  end.

(** The number a numeric value stands for: an [int], or a [str] for which
    [isnumeric] holds, that is a non-empty string of ASCII decimal digits. *)
Definition numeric_value (value : pyval) : option Z :=
  match value with
  | VNone => None
  | VInt z => Some z
  | VStr s => if isnumeric s then Some (int_of_digits s) else None
  end.

(** The host of scenario 2, as the constructor leaves it. *)
Definition host_10_1_1_5 : NetworkObject.t :=
  NetworkObject.mk None (Some "HOST_10.1.1.5") (Some NetworkObject.HOST)
    (Some (ipaddress.mkIPv4Network 167837957 32)) None None.

(** A port slot holds [None] or an integer of 0..65535. *)
Definition port_ok (port : option Z) : Prop :=
  match port with
  | None => True
  | Some p => 0 <= p <= 65535
  end.

Definition ports_valid (self : _TcpOrUdpObject.t) : Prop :=
  port_ok (_TcpOrUdpObject._source_port self) /\
  port_ok (_TcpOrUdpObject._source_end_port self) /\
  port_ok (_TcpOrUdpObject._dest_port self) /\
  port_ok (_TcpOrUdpObject._dest_end_port self).

(** A side of a TCP or UDP object can be rendered: it has no selector, or
    the ports its assertion tests are truthy.  For a source RANGE these are
    the start and the end port; for a destination selector, RANGE included,
    the start port alone. *)
Definition source_ready (self : _TcpOrUdpObject.t) : bool :=
  match _TcpOrUdpObject.source_port_selecter_type self with
  | None => true
  | Some _ServiceObject.RANGE =>
      truthy_int (_TcpOrUdpObject._source_port self)
      && truthy_int (_TcpOrUdpObject._source_end_port self)
  | Some _ => truthy_int (_TcpOrUdpObject._source_port self)
  end.

Definition dest_ready (self : _TcpOrUdpObject.t) : bool :=
  match _TcpOrUdpObject.dest_port_selecter_type self with
  | None => true
  | Some _ => truthy_int (_TcpOrUdpObject._dest_port self)
  end.

(** An ICMP code slot holds [None] or an integer of 1..255. *)
Definition icmp_code_ok (code : option Z) : Prop :=
  match code with
  | None => True
  | Some c => 1 <= c <= 255
  end.

(** An ICMP type slot holds [None], an integer of 1..255, a string that is
    not numeric, or a numeric string that reads as 0..255. *)
Definition icmp_type_ok (value : pyval) : Prop :=
  match value with
  | VNone => True
  | VInt z => 1 <= z <= 255
  | VStr s => isnumeric s = false \/ 0 <= int_of_digits s <= 255
  end.

(** The attributes of a network object that hold a value are those of its
    type: [ip] for a host or a network, [ip] and [end_ip] for a range,
    [fqdn] for a domain name, none without a type. *)
Definition populated_for_type (self : NetworkObject.t) : Prop :=
  match NetworkObject.type self with
  | Some NetworkObject.HOST | Some NetworkObject.NETWORK =>
      NetworkObject.ip self <> None /\ NetworkObject.end_ip self = None /\
      NetworkObject.fqdn self = None
  | Some NetworkObject.RANGE =>
      NetworkObject.ip self <> None /\ NetworkObject.end_ip self <> None /\
      NetworkObject.fqdn self = None
  | Some NetworkObject.FQDN =>
      NetworkObject.ip self = None /\ NetworkObject.end_ip self = None /\
      NetworkObject.fqdn self <> None
  | None =>
      NetworkObject.ip self = None /\ NetworkObject.end_ip self = None /\
      NetworkObject.fqdn self = None
  end.

(** ** class ProtocolObject *)

Module ProtocolObject.

Definition __init__ : result unit := Raise NotImplementedError.

End ProtocolObject.

(** * Properties *)

(** ** The runtime fragment on concrete values *)

Example str_of_int_443 : str_of_int 443 = "443".
Proof. reflexivity. Qed.

Example split_dots : split "." "10.1..5" = ["10"; "1"; ""; "5"].
Proof. reflexivity. Qed.

Example upper_echo : upper "svc_icmp_type_echo-9" = "SVC_ICMP_TYPE_ECHO-9".
Proof. reflexivity. Qed.

Example network_cidr :
  ipaddress.IPv4Network (VStr "10.1.1.0/24") = Ok (ipaddress.mkIPv4Network 167837952 24).
Proof. reflexivity. Qed.

Example network_netmask :
  ipaddress.IPv4Network (VStr "10.1.1.0/255.255.255.0")
  = Ok (ipaddress.mkIPv4Network 167837952 24).
Proof. reflexivity. Qed.

Example network_hostmask :
  ipaddress.IPv4Network (VStr "10.1.0.0/0.0.255.255")
  = Ok (ipaddress.mkIPv4Network 167837696 16).
Proof. reflexivity. Qed.

Example network_host :
  ipaddress.IPv4Network (VStr "10.1.1.5") = Ok (ipaddress.mkIPv4Network 167837957 32).
Proof. reflexivity. Qed.

Example network_packed :
  ipaddress.IPv4Network (VInt 167837957) = Ok (ipaddress.mkIPv4Network 167837957 32).
Proof. reflexivity. Qed.

Example network_host_bits :
  ipaddress.IPv4Network (VStr "10.1.1.5/24") = Raise (ValueError "has host bits set").
Proof. reflexivity. Qed.

Example network_two_slashes :
  ipaddress.IPv4Network (VStr "10.1.1.0/24/24") = Raise AddressValueError.
Proof. reflexivity. Qed.

Example network_none : ipaddress.IPv4Network VNone = Raise AddressValueError.
Proof. reflexivity. Qed.

Example network_leading_zero :
  ipaddress.IPv4Network (VStr "10.01.1.5") = Raise AddressValueError.
Proof. reflexivity. Qed.

Example network_bad_mask :
  ipaddress.IPv4Network (VStr "10.1.1.0/255.0.255.0") = Raise NetmaskValueError.
Proof. reflexivity. Qed.

Example str_of_address_host : ipaddress.str_of_address 167837957 = "10.1.1.5".
Proof. reflexivity. Qed.

Example netmask_24 :
  ipaddress.str_of_address (ipaddress.netmask (ipaddress.mkIPv4Network 167837952 24))
  = "255.255.255.0".
Proof. reflexivity. Qed.

(** ** Strings and results *)

Lemma bind_Ok {A B : Type} (m : result A) (k : A -> result B) (b : B) :
  bind m k = Ok b -> exists a, m = Ok a /\ k a = Ok b.
Proof.
  destruct m as [a|e]; simpl; intro E.
  - exists a. split; [reflexivity | exact E].
  - discriminate E.
Qed.

Lemma Ok_inj {A : Type} (a b : A) : Ok a = Ok b -> a = b.
Proof. intro E. congruence. Qed.

Lemma Ok_pair_inj {A B : Type} (a a' : A) (b b' : B) :
  Ok (a, b) = Ok (a', b') -> a = a' /\ b = b'.
Proof. intro E. split; congruence. Qed.

(** Splits a hypothesis [E : (x <- m ;; k) = Ok b] into the two steps. *)
Ltac bind_inv E :=
  match type of E with
  | bind _ _ = Ok _ =>
      let H := fresh "Hstep" in
      apply bind_Ok in E; destruct E as (? & H & E)
  end.

Lemma py_assert_Ok (cond : bool) (msg : string) (u : unit) :
  py_assert cond msg = Ok u -> cond = true.
Proof.
  destruct cond; simpl; [reflexivity | discriminate].
Qed.

Lemma split_without_separator (sep : ascii) (s : string) :
  contains_char sep s = false -> split sep s = [s].
Proof.
  induction s as [|c s IH]; simpl; intro E.
  - reflexivity.
  - apply orb_false_iff in E. destruct E as [Ec Es].
    rewrite Ec, (IH Es). reflexivity.
Qed.

Lemma prefix_append (p s : string) : String.prefix p (p ++ s) = true.
Proof.
  induction p as [|c p IH]; simpl.
  - destruct s; reflexivity.
  - destruct (ascii_dec c c) as [_|N]; [exact IH | now elim N].
Qed.

Lemma upper_nonempty (c : ascii) (s : string) : truthy_str (Some (upper (String c s))) = true.
Proof. reflexivity. Qed.

(** ** NetworkObject *)

Section NetworkObjectFacts.

Import ipaddress NetworkObject.

Example construct_host_10_1_1_5 :
  NetworkObject.__init__ (Some HOST) (VStr "10.1.1.5") VNone None VNone None VNone VNone
  = Ok host_10_1_1_5.
Proof. reflexivity. Qed.

Example scenario_3_subnet_line :
  (self <- NetworkObject.__init__ (Some NETWORK) (VStr "10.1.1.0") VNone None
             (VStr "24") None VNone VNone ;;
   NetworkObject.cli_attributes self)
  = Ok " subnet 10.1.1.0 255.255.255.0".
Proof. reflexivity. Qed.

(** Whatever the instance, the first two elements of the list are the two
    method objects, not the lines the methods return. *)
Lemma cli_full_starts_with_methods (self : NetworkObject.t) :
  exists rest,
    NetworkObject.cli_full self
    = BoundMethod m_cli_definition :: BoundMethod m_cli_attributes :: rest.
Proof.
  unfold NetworkObject.cli_full.
  destruct (truthy_str (description self)); simpl; eexists; reflexivity.
Qed.

Lemma cli_full_ends_with_bang (self : NetworkObject.t) :
  last (NetworkObject.cli_full self) (Str "") = Str "!".
Proof.
  unfold NetworkObject.cli_full.
  destruct (truthy_str (description self)); reflexivity.
Qed.

(** C1, at the input of scenario 2: [cli_full] of the host 10.1.1.5 is a list
    of three elements whose first two are the bound methods [cli_definition]
    and [cli_attributes] themselves; the two lines the specification expects
    there are what these methods would return if they were called, so the
    list differs from the expected list of three strings. *)
Theorem cli_full_host_holds_methods_not_lines :
  NetworkObject.__init__ (Some HOST) (VStr "10.1.1.5") VNone None VNone None VNone VNone
  = Ok host_10_1_1_5
  /\ NetworkObject.cli_full host_10_1_1_5
     = [BoundMethod m_cli_definition; BoundMethod m_cli_attributes; Str "!"]
  /\ NetworkObject.cli_definition host_10_1_1_5
     = Ok ("object network HOST_10.1.1.5", host_10_1_1_5)
  /\ NetworkObject.cli_attributes host_10_1_1_5 = Ok " host 10.1.1.5"
  /\ NetworkObject.cli_full host_10_1_1_5
     <> [Str "object network HOST_10.1.1.5"; Str " host 10.1.1.5"; Str "!"].
Proof.
  repeat split; try reflexivity.
  discriminate.
Qed.

Lemma name_if_unset_with_ip (self : NetworkObject.t) (net : IPv4Network_t) :
  ip self = Some net ->
  type self = Some HOST \/ type self = Some NETWORK ->
  exists self',
    name_if_unset self = Ok self' /\
    type self' = type self /\ ip self' = ip self /\
    end_ip self' = end_ip self /\ fqdn self' = fqdn self.
Proof.
  intros Hip Hty. unfold name_if_unset.
  destruct (negb (truthy_str (name self))).
  - unfold generate_name.
    destruct Hty as [Hty|Hty]; rewrite Hty, Hip; cbn [getattr bind];
      eexists; (split; [reflexivity|]); cbn [snd]; auto.
  - exists self. auto.
Qed.

Lemma network_without_slash_is_host (address : pyval) (net : IPv4Network_t) :
  IPv4Network address = Ok net ->
  contains_char "/" (py_str address) = false ->
  prefixlen net = 32.
Proof.
  intros Hnet Hslash.
  assert (Hone : forall s, contains_char "/" s = false ->
            match split "/" s with
            | [addr_str] =>
                addr <- IPv4Address (VStr addr_str) ;;
                Ok (mkIPv4Network addr _max_prefixlen)
            | [addr_str; mask_str] =>
                addr <- IPv4Address (VStr addr_str) ;;
                prefixlen <- _make_netmask mask_str ;;
                if Z.land addr (_ip_int_from_prefix prefixlen) =? addr
                then Ok (mkIPv4Network addr prefixlen)
                else Raise (ValueError "has host bits set")
            | _ => Raise AddressValueError
            end = Ok net -> prefixlen net = 32).
  { intros s Hs E. rewrite (split_without_separator _ _ Hs) in E.
    apply bind_Ok in E. destruct E as (addr & _ & E).
    injection E as <-. reflexivity. }
  destruct address as [|z|s]; unfold IPv4Network in Hnet.
  - exact (Hone _ Hslash Hnet).
  - apply bind_Ok in Hnet. destruct Hnet as (addr & _ & E).
    injection E as <-. reflexivity.
  - exact (Hone _ Hslash Hnet).
Qed.

(** The call returns whenever the arguments convert, and sets the type from
    the prefix length alone. *)
Lemma init_host_or_net_object_returns
    (self : NetworkObject.t) (ip netmask CIDR : pyval) (net : IPv4Network_t) :
  convert_supplied ip netmask CIDR = Ok net ->
  exists self',
    init_host_or_net_object self ip netmask CIDR = Ok (net, self') /\
    NetworkObject.ip self' = Some net /\
    type self' = Some (if prefixlen net =? 32 then HOST else NETWORK).
Proof.
  intro Hconv. unfold init_host_or_net_object. rewrite Hconv. cbn [bind].
  set (typed := if prefixlen net =? 32
                then set_type (set_ip self net) (Some HOST)
                else set_type (set_ip self net) (Some NETWORK)).
  assert (Hip : NetworkObject.ip typed = Some net).
  { unfold typed. destruct (prefixlen net =? 32); reflexivity. }
  assert (Hty : type typed = Some (if prefixlen net =? 32 then HOST else NETWORK)).
  { unfold typed. destruct (prefixlen net =? 32); reflexivity. }
  destruct (name_if_unset_with_ip typed net Hip) as (self' & Hn & Hty' & Hip' & _).
  { rewrite Hty. destruct (prefixlen net =? 32); auto. }
  exists self'. rewrite Hn. cbn [bind].
  rewrite Hty in Hty'. rewrite Hip in Hip'. auto.
Qed.

(** C7: whenever the arguments of [init_host_or_net_object] convert to a
    network value, the call returns, whatever the instance held before (the
    type the caller requested included): the instance then has type HOST
    exactly when the prefix length is 32, and NETWORK exactly when it is not;
    with neither a netmask nor a CIDR and no [/] in the address the prefix
    length is 32; and [cli_attributes] renders [ host <addr>] for the former
    and [ subnet <addr> <netmask>] for the latter. *)
Theorem host_or_net_type_follows_prefix
    (self : NetworkObject.t) (ip netmask CIDR : pyval) (net : IPv4Network_t) :
  convert_supplied ip netmask CIDR = Ok net ->
  exists self',
    init_host_or_net_object self ip netmask CIDR = Ok (net, self') /\
    NetworkObject.ip self' = Some net /\
    (type self' = Some HOST <-> prefixlen net = 32) /\
    (type self' = Some NETWORK <-> prefixlen net <> 32) /\
    (truthy netmask = false -> truthy CIDR = false ->
     contains_char "/" (py_str ip) = false -> prefixlen net = 32) /\
    NetworkObject.cli_attributes self'
    = Ok (if prefixlen net =? 32
          then " host " ++ str_of_address (network_address net)
          else " subnet " ++ str_of_address (network_address net)
                          ++ " " ++ str_of_address (ipaddress.netmask net)).
Proof.
  intro Hconv.
  destruct (init_host_or_net_object_returns self ip netmask CIDR net Hconv)
    as (self' & Hinit & Hip' & Hty').
  exists self'. split; [exact Hinit|]. split; [exact Hip'|].
  repeat split.
  - intro E. rewrite Hty' in E. destruct (Z.eqb_spec (prefixlen net) 32); congruence.
  - intro E. rewrite Hty', E. reflexivity.
  - intros E P. rewrite Hty' in E. rewrite P in E. discriminate E.
  - intro N. rewrite Hty'. destruct (Z.eqb_spec (prefixlen net) 32); congruence.
  - intros Hm Hc Hs. unfold convert_supplied in Hconv. rewrite Hm, Hc in Hconv.
    exact (network_without_slash_is_host _ _ Hconv Hs).
  - unfold NetworkObject.cli_attributes. rewrite Hty', Hip'.
    destruct (prefixlen net =? 32); reflexivity.
Qed.

(** The same through the constructor, for both types a caller may request. *)
Corollary constructor_type_follows_prefix
    (requested : ObjectType) (ip netmask CIDR fqdn end_ip : pyval)
    (description name : option string) (net : IPv4Network_t) :
  requested = HOST \/ requested = NETWORK ->
  convert_supplied ip netmask CIDR = Ok net ->
  exists self',
    NetworkObject.__init__ (Some requested) ip netmask description CIDR name fqdn end_ip
    = Ok self' /\
    type self' = Some (if prefixlen net =? 32 then HOST else NETWORK).
Proof.
  intros Hreq Hconv.
  destruct (init_host_or_net_object_returns
              (NetworkObject.mk description name (Some requested) None None None)
              ip netmask CIDR net Hconv)
    as (self' & Hinit & _ & Hty).
  exists self'. split; [|exact Hty].
  unfold NetworkObject.__init__. cbn [NetworkObject.type].
  destruct Hreq as [-> | ->]; rewrite Hinit; reflexivity.
Qed.

Lemma host_or_net_type_follows_prefix_witness :
  exists self',
    init_host_or_net_object
      (NetworkObject.mk None None (Some HOST) None None None)
      (VStr "10.1.1.0") VNone (VInt 24) = Ok (mkIPv4Network 167837952 24, self') /\
    type self' = Some NETWORK /\
    NetworkObject.cli_attributes self' = Ok " subnet 10.1.1.0 255.255.255.0".
Proof.
  destruct (host_or_net_type_follows_prefix
              (NetworkObject.mk None None (Some HOST) None None None)
              (VStr "10.1.1.0") VNone (VInt 24) (mkIPv4Network 167837952 24)
              eq_refl)
    as (self' & Hinit & _ & _ & Hnet & _ & Hcli).
  exists self'. split; [exact Hinit|]. split.
  - apply Hnet. simpl. discriminate.
  - exact Hcli.
Defined.

End NetworkObjectFacts.

(** ** TcpObject and UdpObject *)

Section TcpOrUdpFacts.

Import _ServiceObject _TcpOrUdpObject.

Example scenario_4_name_and_line :
  (self <- call TcpObject None None None (Some SINGLE) (Some 443) None None [] ;;
   r <- _TcpOrUdpObject.name self ;;
   line <- _TcpOrUdpObject.cli_attributes (snd r) ;;
   Ok (fst r, line))
  = Ok ("SVC_TCP_DEST_EQ_443", "service tcp destination eq 443").
Proof. reflexivity. Qed.

Example udp_source_range_dest_lt :
  (self <- call UdpObject (Some RANGE) (Some 80) (Some 90) (Some LESS_THAN) (Some 1024)
             None None [] ;;
   r <- _TcpOrUdpObject.cli_full self ;;
   Ok (fst r))
  = Ok ["object service SVC_UDP_SRC_RANGE_80-90_DEST_LT_1024";
        "service udp source range 80 90 destination lt 1024"; "!"].
Proof. reflexivity. Qed.

Example port_out_of_range :
  call TcpObject None (Some 70000) None None None None None []
  = Raise (ValueError "Port value is out of range").
Proof. reflexivity. Qed.

(** *** The port properties *)

Lemma check_port_Ok (port : option Z) (b : bool) :
  _check_port port = Ok b ->
  port = None \/ exists p, port = Some p /\ 0 <= p <= 65535.
Proof.
  destruct port as [p|]; simpl; [|auto].
  destruct (Z.leb_spec 0 p), (Z.leb_spec p 65535); simpl; try discriminate.
  intros _. right. exists p. split; [reflexivity | lia].
Qed.

Lemma assign_dest_port (self self' : _TcpOrUdpObject.t) (w : option Z) :
  assign dest_port self w = Ok self' -> self' = set__dest_port self w.
Proof.
  unfold assign, dest_port, setter, dest_port_fset. simpl.
  destruct (_check_port w); simpl; [|discriminate].
  intro E. injection E as <-. reflexivity.
Qed.

Lemma assign_dest_end_port (self self' : _TcpOrUdpObject.t) (v : option Z) :
  assign dest_end_port self v = Ok self' -> self' = set__dest_end_port self v.
Proof.
  unfold assign, dest_end_port, setter, dest_end_port_fset. simpl.
  destruct (_check_port v); simpl; [|discriminate].
  intro E. injection E as <-. reflexivity.
Qed.

(** The getter of the final [dest_end_port] binding is the getter of
    [dest_port]; the one written for it survives only in the binding that
    the decorator replaced. *)
Lemma dest_end_port_getter (self : _TcpOrUdpObject.t) :
  fget dest_end_port self = _dest_port self
  /\ fget dest_end_port_0 self = _dest_end_port self.
Proof. split; reflexivity. Qed.

Lemma source_end_port_getter (self : _TcpOrUdpObject.t) :
  fget source_end_port self = _source_end_port self.
Proof. reflexivity. Qed.

(** C10: once [dest_port] has been assigned [w] and [dest_end_port] has been
    assigned [v], reading [dest_end_port] returns [w]; [v] sits in
    [_dest_end_port], which no getter reads.  With a RANGE destination
    selector the generated name therefore ends in [_DEST_RANGE_<w>-<w>],
    after the name the same instance has without a destination selector, and
    the destination clause, which is rendered exactly when [w] is a non-zero
    port, repeats [w] in both positions. *)
Theorem dest_end_port_reads_dest_port
    (self self1 self2 : _TcpOrUdpObject.t) (w v : option Z) :
  assign dest_port self w = Ok self1 ->
  assign dest_end_port self1 v = Ok self2 ->
  fget dest_end_port self2 = w /\
  _dest_end_port self2 = v /\
  (dest_port_selecter_type self2 = Some RANGE ->
   (exists pre named,
      _TcpOrUdpObject.generate_name (set_dest_port_selecter_type self2 None)
      = Ok (pre, named) /\
      _TcpOrUdpObject.generate_name self2
      = Ok (pre ++ "_DEST_RANGE_" ++ fmt_int w ++ "-" ++ fmt_int w,
            set__name self2
              (Some (pre ++ "_DEST_RANGE_" ++ fmt_int w ++ "-" ++ fmt_int w)))) /\
   dest_clause self2
   = if truthy_int w
     then Ok (" source range " ++ fmt_int w ++ " " ++ fmt_int w)
     else Raise (AssertionError "Range starting or ending port not defined")).
Proof.
  intros H1 H2.
  apply assign_dest_port in H1. apply assign_dest_end_port in H2. subst self1 self2.
  split; [reflexivity|]. split; [reflexivity|].
  intro Hsel. split.
  - unfold _TcpOrUdpObject.generate_name. rewrite Hsel.
    cbn [dest_port_selecter_type set_dest_port_selecter_type].
    eexists. eexists. split; [reflexivity|].
    cbn [fget dest_port dest_end_port setter property_of dest_port_fget
         _dest_port set__dest_end_port set__dest_port].
    reflexivity.
  - unfold dest_clause. rewrite Hsel.
    cbn [fget dest_port dest_end_port setter property_of dest_port_fget
         _dest_port set__dest_end_port set__dest_port value].
    destruct (truthy_int w); reflexivity.
Qed.

Lemma dest_end_port_reads_dest_port_witness :
  exists self2,
    (self1 <- assign dest_port
                (_TcpOrUdpObject.mk TcpObject None None None None (Some RANGE) None None)
                (Some 8080) ;;
     assign dest_end_port self1 (Some 8090)) = Ok self2 /\
    fget dest_end_port self2 = Some 8080 /\
    _dest_end_port self2 = Some 8090 /\
    _TcpOrUdpObject.generate_name self2
    = Ok ("SVC_TCP_DEST_RANGE_8080-8080",
          set__name self2 (Some "SVC_TCP_DEST_RANGE_8080-8080")) /\
    dest_clause self2 = Ok " source range 8080 8080".
Proof.
  eexists. split; [reflexivity|].
  destruct (dest_end_port_reads_dest_port
              (_TcpOrUdpObject.mk TcpObject None None None None (Some RANGE) None None)
              _ _ (Some 8080) (Some 8090) eq_refl eq_refl)
    as (Hget & Hslot & Hrange).
  destruct (Hrange eq_refl) as ((pre & named & Hpre & Hname) & Hclause).
  split; [exact Hget|]. split; [exact Hslot|]. split; [|exact Hclause].
  vm_compute in Hpre. injection Hpre as <- _. exact Hname.
Defined.

(** *** Rendering *)

Lemma cli_attributes_shape (self : _TcpOrUdpObject.t) (line : string) :
  _TcpOrUdpObject.cli_attributes self = Ok line ->
  exists source dest,
    source_clause self = Ok source /\
    dest_clause self = Ok dest /\
    line = "service " ++ _OBJECT_TYPE (cls self) ++ source ++ dest.
Proof.
  unfold _TcpOrUdpObject.cli_attributes. intro E.
  apply bind_Ok in E. destruct E as (_ & _ & E).
  apply bind_Ok in E. destruct E as (_ & _ & E).
  apply bind_Ok in E. destruct E as (source & Hs & E).
  apply bind_Ok in E. destruct E as (dest & Hd & E).
  injection E as <-. exists source, dest. auto.
Qed.

(** C9: in every line [cli_attributes] returns, the destination clause of a
    RANGE selector starts with the token [source] (it is
    [ source range <p> <q>], and does not start with [destination]), while
    the destination clause of each other selector starts with
    [destination]. *)
Theorem dest_range_clause_says_source (self : _TcpOrUdpObject.t) (line : string) :
  _TcpOrUdpObject.cli_attributes self = Ok line ->
  exists source dest,
    source_clause self = Ok source /\
    dest_clause self = Ok dest /\
    line = "service " ++ _OBJECT_TYPE (cls self) ++ source ++ dest /\
    (dest_port_selecter_type self = Some RANGE ->
     dest = " source range " ++ fmt_int (fget dest_port self)
                             ++ " " ++ fmt_int (fget dest_end_port self) /\
     String.prefix " source " dest = true /\
     String.prefix " destination " dest = false) /\
    (forall sel, dest_port_selecter_type self = Some sel -> sel <> RANGE ->
     dest = " destination " ++ value sel ++ " " ++ fmt_int (fget dest_port self) /\
     String.prefix " destination " dest = true).
Proof.
  intro E. destruct (cli_attributes_shape _ _ E) as (source & dest & Hs & Hd & Hl).
  exists source, dest. repeat (split; [assumption|]).
  unfold dest_clause in Hd. split.
  - intro Hsel. rewrite Hsel in Hd.
    apply bind_Ok in Hd. destruct Hd as (_ & _ & Hd). injection Hd as <-.
    repeat split; reflexivity.
  - intros sel Hsel Hne. rewrite Hsel in Hd.
    destruct sel; try (now elim Hne);
      apply bind_Ok in Hd; destruct Hd as (_ & _ & Hd); injection Hd as <-;
      split; reflexivity.
Qed.

Lemma dest_range_clause_says_source_witness :
  exists source dest,
    source_clause
      (_TcpOrUdpObject.mk UdpObject None None None None (Some RANGE) (Some 5000) (Some 5010))
    = Ok source /\
    dest = " source range 5000 5000" /\
    "service udp source range 5000 5000" = "service udp" ++ source ++ dest.
Proof.
  destruct (dest_range_clause_says_source
              (_TcpOrUdpObject.mk UdpObject None None None None (Some RANGE)
                 (Some 5000) (Some 5010))
              "service udp source range 5000 5000" eq_refl)
    as (source & dest & Hs & _ & Hl & Hrange & _).
  exists source, dest. split; [exact Hs|].
  destruct (Hrange eq_refl) as (Hd & _). split; [exact Hd|].
  exact Hl.
Defined.

(** C2, at a destination RANGE selector whose start port is set and whose
    end port is not: the constructor succeeds, and [cli_attributes] returns a
    line instead of raising [AssertionError]; the check of the end port reads
    [dest_end_port], which yields the start port. *)
Theorem dest_range_without_end_port_renders :
  call TcpObject None None None (Some RANGE) (Some 80) None None []
  = Ok (_TcpOrUdpObject.mk TcpObject None None None None (Some RANGE) (Some 80) None)
  /\ _TcpOrUdpObject.cli_attributes
       (_TcpOrUdpObject.mk TcpObject None None None None (Some RANGE) (Some 80) None)
     = Ok "service tcp source range 80 80".
Proof. split; reflexivity. Qed.

(** Where the claim does hold: the source side, and the start port of either
    side. *)
Lemma source_range_without_port_fails (self : _TcpOrUdpObject.t) :
  source_port_selecter_type self = Some RANGE ->
  _source_port self = None \/ _source_end_port self = None ->
  _TcpOrUdpObject.cli_attributes self
  = Raise (AssertionError "Range starting or ending port not defined").
Proof.
  intros Hsel Hnone. unfold _TcpOrUdpObject.cli_attributes, source_clause.
  rewrite Hsel.
  cbn [fget source_port source_end_port setter property_of].
  unfold source_port_fget, source_end_port_fget.
  destruct (dest_port_selecter_type self);
    cbn [selecter_valid py_assert bind];
    destruct Hnone as [H | H]; rewrite H; cbn [truthy_int andb py_assert bind];
    try reflexivity;
    destruct (truthy_int (_source_port self)); reflexivity.
Qed.

Lemma source_single_without_port_fails (self : _TcpOrUdpObject.t) (sel : PortSelecterType) :
  source_port_selecter_type self = Some sel -> sel <> RANGE ->
  _source_port self = None ->
  _TcpOrUdpObject.cli_attributes self = Raise (AssertionError "Source port not defined").
Proof.
  intros Hsel Hne Hnone. unfold _TcpOrUdpObject.cli_attributes, source_clause.
  rewrite Hsel.
  cbn [fget source_port setter property_of]. unfold source_port_fget.
  rewrite Hnone.
  destruct sel; try (now elim Hne);
    destruct (dest_port_selecter_type self); reflexivity.
Qed.

Lemma selecter_valid_true (sel : option PortSelecterType) : selecter_valid sel = true.
Proof. destruct sel; reflexivity. Qed.

Lemma source_clause_raises (self : _TcpOrUdpObject.t) (e : exn) :
  source_clause self = Raise e -> exists msg, e = AssertionError msg.
Proof.
  unfold source_clause.
  destruct (source_port_selecter_type self) as [[]|]; try discriminate;
    match goal with
    | |- bind (py_assert ?c ?m) _ = _ -> _ =>
        destruct c; cbn [py_assert bind]; [discriminate|];
        intro E; injection E as <-; eexists; reflexivity
    end.
Qed.

Lemma dest_without_start_port_fails (self : _TcpOrUdpObject.t) (sel : PortSelecterType) :
  dest_port_selecter_type self = Some sel ->
  _dest_port self = None ->
  exists msg, _TcpOrUdpObject.cli_attributes self = Raise (AssertionError msg).
Proof.
  intros Hsel Hnone. unfold _TcpOrUdpObject.cli_attributes.
  rewrite !selecter_valid_true. cbn [py_assert bind].
  assert (Hd : exists msg, dest_clause self = Raise (AssertionError msg)).
  { unfold dest_clause. rewrite Hsel.
    cbn [fget dest_port dest_end_port setter property_of]. unfold dest_port_fget.
    rewrite Hnone. destruct sel; eexists; reflexivity. }
  destruct Hd as (msg & Hd).
  destruct (source_clause self) as [source|e] eqn:Hs; cbn [bind].
  - rewrite Hd. exists msg. reflexivity.
  - destruct (source_clause_raises _ _ Hs) as (m & ->). exists m. reflexivity.
Qed.

(** Every line of a TCP or UDP object starts with the letter [s] of
    [service]. *)
Lemma tcp_udp_line_starts_with_s (self : _TcpOrUdpObject.t) (line : string) :
  _TcpOrUdpObject.cli_attributes self = Ok line -> first_char line = Some "s"%char.
Proof.
  intro E. destruct (cli_attributes_shape _ _ E) as (source & dest & _ & _ & ->).
  reflexivity.
Qed.

(** C6, at the object of scenario 4: the attribute line of a TCP object is
    [service tcp destination eq 443]; its first character is the [s] of
    [service], not a space. *)
Theorem tcp_attribute_line_lacks_leading_space :
  call TcpObject None None None (Some SINGLE) (Some 443) None None []
  = Ok (_TcpOrUdpObject.mk TcpObject None None None None (Some SINGLE) (Some 443) None)
  /\ _TcpOrUdpObject.cli_attributes
       (_TcpOrUdpObject.mk TcpObject None None None None (Some SINGLE) (Some 443) None)
     = Ok "service tcp destination eq 443"
  /\ first_char "service tcp destination eq 443" = Some "s"%char
  /\ first_char "service tcp destination eq 443" <> Some " "%char.
Proof. repeat split; try reflexivity. discriminate. Qed.

(** *** Names *)

Lemma set__name_twice (self : _TcpOrUdpObject.t) (x y : option string) :
  set__name (set__name self x) y = set__name self y.
Proof. reflexivity. Qed.

(** [generate_name] always returns; the name is not empty, does not depend
    on [_name], and is stored in [_name]. *)
Lemma tcp_udp_generate_name_total (self : _TcpOrUdpObject.t) :
  exists n,
    truthy_str (Some n) = true /\
    forall x, _TcpOrUdpObject.generate_name (set__name self x)
              = Ok (n, set__name self (Some n)).
Proof.
  unfold _TcpOrUdpObject.generate_name.
  cbn [cls source_port_selecter_type dest_port_selecter_type set__name
       fget source_port source_end_port dest_port dest_end_port setter property_of
       source_port_fget source_end_port_fget dest_port_fget
       _source_port _source_end_port _dest_port].
  eexists. split; [|intro x; reflexivity].
  destruct (source_port_selecter_type self) as [[]|],
           (dest_port_selecter_type self) as [[]|]; reflexivity.
Qed.

Lemma set__name_same (self : _TcpOrUdpObject.t) :
  set__name self (_TcpOrUdpObject._name self) = self.
Proof. destruct self; reflexivity. Qed.

Lemma tcp_udp_generate_name_inv (self self' : _TcpOrUdpObject.t) (n : string) :
  _TcpOrUdpObject.generate_name self = Ok (n, self') ->
  truthy_str (Some n) = true /\ self' = set__name self (Some n) /\
  _TcpOrUdpObject.generate_name self' = Ok (n, self').
Proof.
  intro E. destruct (tcp_udp_generate_name_total self) as (m & Hm & Hgen).
  pose proof (Hgen (_name self)) as H0. rewrite set__name_same in H0.
  rewrite H0 in E. injection E as <- <-.
  split; [exact Hm|]. split; [reflexivity|]. apply Hgen.
Qed.

Lemma tcp_udp_cached_name_is_returned (self : _TcpOrUdpObject.t) (n : string) :
  truthy_str (Some n) = true -> _TcpOrUdpObject._name self = Some n ->
  _TcpOrUdpObject.name self = Ok (n, self).
Proof.
  intros Hn Hc. unfold _TcpOrUdpObject.name, _ServiceObject.name, name_fget.
  change (_ServiceObject._name self) with (_TcpOrUdpObject._name self).
  rewrite Hc, Hn. reflexivity.
Qed.

Lemma tcp_udp_name_inv (self self' : _TcpOrUdpObject.t) (n : string) :
  _TcpOrUdpObject.name self = Ok (n, self') ->
  truthy_str (Some n) = true /\ self' = set__name self (Some n).
Proof.
  unfold _TcpOrUdpObject.name, _ServiceObject.name, name_fget.
  change (_ServiceObject._name self) with (_TcpOrUdpObject._name self).
  change (_ServiceObject.generate_name self) with (_TcpOrUdpObject.generate_name self).
  destruct (truthy_str (_TcpOrUdpObject._name self)) eqn:Ht.
  - intro E. injection E as <- <-.
    destruct (_TcpOrUdpObject._name self) as [s|] eqn:Hs; [|discriminate Ht].
    split; [exact Ht|]. cbn [fmt_str]. rewrite <- Hs. symmetry. apply set__name_same.
  - intro E. apply tcp_udp_generate_name_inv in E. tauto.
Qed.

Lemma tcp_udp_cli_attributes_ignores_name (self : _TcpOrUdpObject.t) (x : option string) :
  _TcpOrUdpObject.cli_attributes (set__name self x) = _TcpOrUdpObject.cli_attributes self.
Proof. reflexivity. Qed.

Lemma tcp_udp_cli_definition_inv (self self' : _TcpOrUdpObject.t) (line : string) :
  _TcpOrUdpObject.cli_definition self = Ok (line, self') ->
  exists n, line = "object service " ++ n /\ self' = set__name self (Some n).
Proof.
  unfold _TcpOrUdpObject.cli_definition, _ServiceObject.cli_definition.
  fold (_TcpOrUdpObject.name self). intro E.
  apply bind_Ok in E. destruct E as ([n1 s1] & H1 & E).
  apply tcp_udp_name_inv in H1. destruct H1 as (Hn1 & ->).
  cbn [fst snd] in E.
  change (truthy (VStr n1)) with (truthy_str (Some n1)) in E.
  rewrite Hn1 in E. cbn [negb bind] in E.
  apply bind_Ok in E. destruct E as ([n2 s2] & H2 & E).
  change (_ServiceObject.name (set__name self (Some n1)))
    with (_TcpOrUdpObject.name (set__name self (Some n1))) in H2.
  apply tcp_udp_name_inv in H2. destruct H2 as (_ & ->).
  cbn [fst snd] in E. injection E as <- <-.
  exists n2. split; reflexivity.
Qed.

Lemma source_clause_text (self : _TcpOrUdpObject.t) :
  source_ready self = true ->
  source_clause self
  = Ok (match source_port_selecter_type self with
        | None => ""
        | Some RANGE =>
            " source range " ++ fmt_int (_source_port self)
                             ++ " " ++ fmt_int (_source_end_port self)
        | Some sel => " source " ++ value sel ++ " " ++ fmt_int (_source_port self)
        end).
Proof.
  unfold source_ready, source_clause.
  cbn [fget source_port source_end_port setter property_of].
  unfold source_port_fget, source_end_port_fget.
  destruct (source_port_selecter_type self) as [[]|]; intro H;
    try rewrite H; reflexivity.
Qed.

Lemma dest_clause_text (self : _TcpOrUdpObject.t) :
  dest_ready self = true ->
  dest_clause self
  = Ok (match dest_port_selecter_type self with
        | None => ""
        | Some RANGE =>
            " source range " ++ fmt_int (_dest_port self)
                             ++ " " ++ fmt_int (_dest_port self)
        | Some sel => " destination " ++ value sel ++ " " ++ fmt_int (_dest_port self)
        end).
Proof.
  unfold dest_ready, dest_clause.
  cbn [fget dest_port dest_end_port setter property_of].
  unfold dest_port_fget.
  destruct (dest_port_selecter_type self) as [[]|]; intro H;
    try rewrite H; reflexivity.
Qed.

Lemma clause_not_ready_raises (self : _TcpOrUdpObject.t) :
  source_ready self && dest_ready self = false ->
  exists msg, _TcpOrUdpObject.cli_attributes self = Raise (AssertionError msg).
Proof.
  intro H. unfold _TcpOrUdpObject.cli_attributes.
  rewrite !selecter_valid_true. cbn [py_assert bind].
  destruct (source_ready self) eqn:Hs.
  - rewrite (source_clause_text _ Hs). cbn [bind].
    cbn [andb] in H. unfold dest_ready in H. unfold dest_clause.
    cbn [fget dest_port dest_end_port setter property_of]. unfold dest_port_fget.
    destruct (dest_port_selecter_type self) as [[]|]; try discriminate H;
      rewrite H; eexists; reflexivity.
  - unfold source_ready in Hs. unfold source_clause.
    cbn [fget source_port source_end_port setter property_of].
    unfold source_port_fget, source_end_port_fget.
    destruct (source_port_selecter_type self) as [[]|]; try discriminate Hs;
      rewrite Hs; eexists; reflexivity.
Qed.

(** C4, the scenario of the claim: the construction raises. *)
Lemma tcp_foreign_keywords_raise :
  call TcpObject None None None None None None None
       [("icmp_type", VStr "echo"); ("icmp_code", VInt 40)]
  = Raise TypeError.
Proof. reflexivity. Qed.

(** C4 as amended.  A call of either class with one keyword or more beyond
    those of the signature raises [TypeError], whatever the other arguments.
    For every instance there is, [cli_full] has one of two outcomes, decided
    by the ports the selectors need: it raises [AssertionError], or it
    returns exactly the definition line [object service <name>], the line
    [service <tcp|udp><source><dest>] of the class of the instance, and
    [!], where [<source>] and [<dest>] are the clauses of the TCP and UDP
    template on the selectors and ports of the instance (empty without a
    selector).  No line [cli_attributes] returns for such an instance is a
    line [cli_attributes] of an ICMP object returns. *)
Theorem foreign_keyword_raises_and_lines_follow_class :
  (forall (c : subclass) (sst dst : option PortSelecterType)
          (sp sep dp dep : option Z) (name : option string)
          (kw : string * pyval) (extra : list (string * pyval)),
     call c sst sp sep dst dp dep name (kw :: extra) = Raise TypeError) /\
  (forall self : _TcpOrUdpObject.t,
     (source_ready self && dest_ready self = false /\
      exists msg, _TcpOrUdpObject.cli_full self = Raise (AssertionError msg)) \/
     (source_ready self && dest_ready self = true /\
      exists n,
        truthy_str (Some n) = true /\
        _TcpOrUdpObject.name self = Ok (n, set__name self (Some n)) /\
        _TcpOrUdpObject.cli_full self
        = Ok (["object service " ++ n;
               "service " ++ _OBJECT_TYPE (cls self)
                 ++ match source_port_selecter_type self with
                    | None => ""
                    | Some RANGE =>
                        " source range " ++ fmt_int (_source_port self)
                                         ++ " " ++ fmt_int (_source_end_port self)
                    | Some sel =>
                        " source " ++ value sel ++ " " ++ fmt_int (_source_port self)
                    end
                 ++ match dest_port_selecter_type self with
                    | None => ""
                    | Some RANGE =>
                        " source range " ++ fmt_int (_dest_port self)
                                         ++ " " ++ fmt_int (_dest_port self)
                    | Some sel =>
                        " destination " ++ value sel ++ " " ++ fmt_int (_dest_port self)
                    end;
               "!"],
              set__name self (Some n)))) /\
  (forall (self : _TcpOrUdpObject.t) (icmp : IcmpObject.t) (line icmp_line : string),
     _TcpOrUdpObject.cli_attributes self = Ok line ->
     IcmpObject.cli_attributes icmp = Ok icmp_line ->
     line <> icmp_line).
Proof.
  split; [reflexivity|]. split.
  - intro self.
    assert (Hfull : exists n,
              truthy_str (Some n) = true /\
              _TcpOrUdpObject.name self = Ok (n, set__name self (Some n)) /\
              _TcpOrUdpObject.cli_full self
              = (line <- _TcpOrUdpObject.cli_attributes self ;;
                 Ok (["object service " ++ n; line; "!"], set__name self (Some n)))).
    { assert (Hname : exists n,
                truthy_str (Some n) = true /\
                _TcpOrUdpObject.name self = Ok (n, set__name self (Some n))).
      { destruct (truthy_str (_TcpOrUdpObject._name self)) eqn:Ht.
        - destruct (_TcpOrUdpObject._name self) as [s|] eqn:Hs; [|discriminate Ht].
          exists s. split; [exact Ht|].
          rewrite <- Hs, set__name_same.
          apply tcp_udp_cached_name_is_returned; assumption.
        - destruct (tcp_udp_generate_name_total self) as (n & Hn & Hgen).
          exists n. split; [exact Hn|].
          unfold _TcpOrUdpObject.name, _ServiceObject.name, name_fget.
          change (_ServiceObject._name self) with (_TcpOrUdpObject._name self).
          change (_ServiceObject.generate_name self)
            with (_TcpOrUdpObject.generate_name self).
          rewrite Ht. rewrite <- (set__name_same self) at 1. apply Hgen. }
      destruct Hname as (n & Hn & Hname).
      exists n. split; [exact Hn|]. split; [exact Hname|].
      assert (Hdef : _TcpOrUdpObject.cli_definition self
                     = Ok ("object service " ++ n, set__name self (Some n))).
      { unfold _TcpOrUdpObject.cli_definition, _ServiceObject.cli_definition.
        fold (_TcpOrUdpObject.name self). rewrite Hname. cbn [bind fst snd].
        change (truthy (VStr n)) with (truthy_str (Some n)). rewrite Hn.
        cbn [negb bind].
        change (_ServiceObject.name (set__name self (Some n)))
          with (_TcpOrUdpObject.name (set__name self (Some n))).
        rewrite (tcp_udp_cached_name_is_returned (set__name self (Some n)) n Hn eq_refl).
        reflexivity. }
      unfold _TcpOrUdpObject.cli_full, _ServiceObject.cli_full.
      change (_ServiceObject.cli_definition self)
        with (_TcpOrUdpObject.cli_definition self).
      rewrite Hdef. cbn [bind fst snd].
      change (_ServiceObject.cli_attributes (set__name self (Some n)))
        with (_TcpOrUdpObject.cli_attributes (set__name self (Some n))).
      rewrite tcp_udp_cli_attributes_ignores_name. reflexivity. }
    destruct Hfull as (n & Hn & Hname & Hfull).
    destruct (source_ready self && dest_ready self) eqn:Hready.
    + right. split; [reflexivity|]. exists n.
      split; [exact Hn|]. split; [exact Hname|].
      apply andb_true_iff in Hready. destruct Hready as (Hs & Hd).
      rewrite Hfull. unfold _TcpOrUdpObject.cli_attributes.
      rewrite !selecter_valid_true. cbn [py_assert bind].
      rewrite (source_clause_text _ Hs), (dest_clause_text _ Hd). reflexivity.
    + left. split; [reflexivity|].
      destruct (clause_not_ready_raises _ Hready) as (msg & Hraise).
      exists msg. rewrite Hfull, Hraise. reflexivity.
  - intros self icmp line icmp_line Ht Hi Heq.
    destruct (cli_attributes_shape _ _ Ht) as (source & dest & _ & _ & Hl).
    unfold IcmpObject.cli_attributes in Hi.
    bind_inv Hi. bind_inv Hi. apply Ok_inj in Hi.
    rewrite Hl, <- Hi in Heq.
    destruct (truthy_int (fget IcmpObject.icmp_code icmp)); discriminate Heq.
Qed.

Lemma foreign_keyword_raises_and_lines_follow_class_witness :
  call TcpObject None None None None None None (Some "Stu") [("icmp_type", VStr "echo")]
  = Raise TypeError
  /\ "service tcp destination eq 443" <> " service icmp echo 40".
Proof.
  split.
  - apply (proj1 foreign_keyword_raises_and_lines_follow_class).
  - apply (proj2 (proj2 foreign_keyword_raises_and_lines_follow_class)
             (_TcpOrUdpObject.mk TcpObject (Some "Stu") None None None
                (Some SINGLE) (Some 443) None)
             (IcmpObject.mk None (Some 40) (VStr "echo"))).
    + reflexivity.
    + reflexivity.
Defined.

End TcpOrUdpFacts.

(** ** IcmpObject *)

Section IcmpFacts.

Import _ServiceObject IcmpObject.

Example scenario_1_echo_40 :
  (self <- IcmpObject.__init__ None (VStr "echo") (Some 40) ;;
   r <- IcmpObject.cli_full self ;;
   Ok (fst r))
  = Ok ["object service SVC_ICMP_TYPE_ECHO_CODE_40"; " service icmp echo 40"; "!"].
Proof. reflexivity. Qed.

Example icmp_code_out_of_range :
  IcmpObject.__init__ None (VStr "echo") (Some 256)
  = Raise (ValueError "The given ICMP code is invalid").
Proof. reflexivity. Qed.

(** *** Validation of the type *)

Lemma isnumeric_nonempty (s : string) : isnumeric s = true -> truthy (VStr s) = true.
Proof. destruct s; [discriminate | reflexivity]. Qed.

Lemma verify_icmp_type_symbolic (s : string) (raise_error : bool) :
  isnumeric s = false -> _verify_icmp_type (VStr s) raise_error = Ok true.
Proof.
  intro Hs. unfold _verify_icmp_type. cbn [isinstance_str py_str andb].
  rewrite Hs. reflexivity.
Qed.

Lemma verify_icmp_type_numeric (value : pyval) (n : Z) :
  numeric_value value = Some n -> value <> VInt 0 ->
  _verify_icmp_type value true
  = if (0 <=? n) && (n <=? 255) then Ok true
    else Raise (ValueError "The given ICMP type is invalid").
Proof.
  intros Hn Hz. unfold _verify_icmp_type.
  destruct value as [|z|s]; cbn [numeric_value] in Hn.
  - discriminate Hn.
  - injection Hn as ->. cbn [isinstance_str andb truthy py_int bind].
    destruct (Z.eqb_spec n 0) as [->|_]; [now elim Hz | reflexivity].
  - destruct (isnumeric s) eqn:Hs; [|discriminate Hn]. injection Hn as <-.
    cbn [isinstance_str py_str andb py_int]. rewrite Hs.
    cbn [negb]. rewrite (isnumeric_nonempty _ Hs). reflexivity.
Qed.

(** The setter checks every value but [None] and stores what passes. *)
Lemma icmp_type_setter (self : IcmpObject.t) (value : pyval) :
  value <> VNone ->
  assign icmp_type self value
  = (valid <- _verify_icmp_type value true ;;
     if valid then Ok (set__icmp_type self value) else Ok self).
Proof.
  intro Hv. destruct value; [now elim Hv | reflexivity | reflexivity].
Qed.

(** [cli_attributes] starts by checking the stored type again. *)
Lemma cli_attributes_checks_type (self : IcmpObject.t) (e : exn) :
  _verify_icmp_type (_icmp_type self) true = Raise e ->
  IcmpObject.cli_attributes self = Raise e.
Proof.
  intro E. unfold IcmpObject.cli_attributes.
  cbn [fget icmp_type setter property_of]. unfold icmp_type_fget.
  rewrite E. reflexivity.
Qed.

(** C5, where the claim fails: the setter stores [None] without raising, and
    the integer 0 is turned down as an unset type by the check, hence by the
    setter. *)
Lemma icmp_type_setter_takes_None_and_check_refuses_zero :
  assign icmp_type (IcmpObject.mk None None (VStr "echo")) VNone
  = Ok (IcmpObject.mk None None VNone)
  /\ _verify_icmp_type (VInt 0) true = Raise (ValueError "ICMP Type not set")
  /\ assign icmp_type (IcmpObject.mk None None VNone) (VInt 0)
     = Raise (ValueError "ICMP Type not set").
Proof. repeat split. Qed.

Lemma is_digit_below_128 (c : ascii) : is_digit c = true -> (N_of_ascii c <? 128)%N = true.
Proof.
  unfold is_digit. intro H. apply andb_true_iff in H. destruct H as (_ & H).
  apply N.leb_le in H. apply N.ltb_lt. lia.
Qed.

Lemma all_digits_isascii (s : string) : all_digits s = true -> isascii s = true.
Proof.
  induction s as [|c s IH]; [reflexivity|].
  cbn [all_digits isascii]. intro H. apply andb_true_iff in H. destruct H as (Hc & Hs).
  rewrite (is_digit_below_128 _ Hc), (IH Hs). reflexivity.
Qed.

Lemma isnumeric_all_digits (s : string) : isnumeric s = true -> all_digits s = true.
Proof. destruct s; [discriminate | exact (fun H => H)]. Qed.

(** C5 as amended, on ASCII strings.  For every instance and value: an
    ASCII string that is not numeric passes the check and the setter stores
    it as it is; [None] fails the check with [ValueError], at render time
    too, whereas the setter stores it without checking; a numeric value (an
    integer other than the integer 0, or a numeric string, which here is a
    non-empty string of ASCII decimal digits) passes the check and is stored
    when it lies in 0..255, and makes both the check and the setter raise
    [ValueError] when it does not; and [cli_attributes] raises whatever the
    check raises on the stored type. *)
Theorem icmp_type_validation (self : IcmpObject.t) (value : pyval) :
  (forall s, value = VStr s -> isascii s = true -> isnumeric s = false ->
     _verify_icmp_type value true = Ok true /\
     assign icmp_type self value = Ok (set__icmp_type self (VStr s))) /\
  (value = VNone ->
     _verify_icmp_type value true = Raise (ValueError "ICMP Type not set") /\
     assign icmp_type self value = Ok (set__icmp_type self VNone) /\
     IcmpObject.cli_attributes (set__icmp_type self VNone)
     = Raise (ValueError "ICMP Type not set")) /\
  (forall s n, value = VStr s -> numeric_value value = Some n ->
     isascii s = true /\ s <> "" /\ all_digits s = true /\ n = int_of_digits s) /\
  (forall n, numeric_value value = Some n -> value <> VInt 0 -> 0 <= n <= 255 ->
     _verify_icmp_type value true = Ok true /\
     assign icmp_type self value = Ok (set__icmp_type self value)) /\
  (forall n, numeric_value value = Some n -> n < 0 \/ 255 < n ->
     _verify_icmp_type value true = Raise (ValueError "The given ICMP type is invalid") /\
     assign icmp_type self value = Raise (ValueError "The given ICMP type is invalid") /\
     IcmpObject.cli_attributes (set__icmp_type self value)
     = Raise (ValueError "The given ICMP type is invalid")) /\
  (forall e, _verify_icmp_type (_icmp_type self) true = Raise e ->
     IcmpObject.cli_attributes self = Raise e).
Proof.
  repeat apply conj.
  - intros s -> _ Hs. rewrite icmp_type_setter by discriminate.
    rewrite (verify_icmp_type_symbolic _ _ Hs). split; reflexivity.
  - intros ->. repeat split.
  - intros s n -> Hn. cbn [numeric_value] in Hn.
    destruct (isnumeric s) eqn:Hs; [|discriminate Hn].
    injection Hn as Hn.
    pose proof (isnumeric_all_digits _ Hs) as Hd.
    split; [exact (all_digits_isascii _ Hd)|].
    split; [intros ->; discriminate Hs|].
    split; [exact Hd | symmetry; exact Hn].
  - intros n Hn Hz Hr.
    assert (Hv : _verify_icmp_type value true = Ok true).
    { rewrite (verify_icmp_type_numeric _ _ Hn Hz).
      destruct (Z.leb_spec 0 n), (Z.leb_spec n 255); try lia. reflexivity. }
    split; [exact Hv|]. rewrite icmp_type_setter.
    + rewrite Hv. reflexivity.
    + intros ->. discriminate Hn.
  - intros n Hn Hr.
    assert (Hz : value <> VInt 0).
    { intros ->. cbn in Hn. injection Hn as <-. lia. }
    assert (Hv : _verify_icmp_type value true
                 = Raise (ValueError "The given ICMP type is invalid")).
    { rewrite (verify_icmp_type_numeric _ _ Hn Hz).
      destruct (Z.leb_spec 0 n), (Z.leb_spec n 255); try lia; reflexivity. }
    split; [exact Hv|]. split.
    + rewrite icmp_type_setter.
      * rewrite Hv. reflexivity.
      * intros ->. discriminate Hn.
    + apply cli_attributes_checks_type. exact Hv.
  - apply cli_attributes_checks_type.
Qed.

Lemma icmp_type_validation_witness :
  (_verify_icmp_type (VStr "echo") true = Ok true /\
   assign icmp_type (IcmpObject.mk None None VNone) (VStr "echo")
   = Ok (IcmpObject.mk None None (VStr "echo"))) /\
  (_verify_icmp_type (VStr "0") true = Ok true /\
   assign icmp_type (IcmpObject.mk None None VNone) (VStr "0")
   = Ok (IcmpObject.mk None None (VStr "0"))) /\
  (_verify_icmp_type (VInt 255) true = Ok true /\
   assign icmp_type (IcmpObject.mk None None VNone) (VInt 255)
   = Ok (IcmpObject.mk None None (VInt 255))) /\
  _verify_icmp_type (VInt 256) true = Raise (ValueError "The given ICMP type is invalid") /\
  _verify_icmp_type (VStr "300") true = Raise (ValueError "The given ICMP type is invalid") /\
  (isascii "300" = true /\ "300" <> "" /\ all_digits "300" = true /\ 300 = int_of_digits "300") /\
  IcmpObject.cli_attributes (IcmpObject.mk None None VNone)
  = Raise (ValueError "ICMP Type not set").
Proof.
  pose (blank := IcmpObject.mk None None VNone).
  repeat apply conj.
  - apply (proj1 (icmp_type_validation blank (VStr "echo")) "echo" eq_refl eq_refl eq_refl).
  - apply (proj1 (icmp_type_validation blank (VStr "echo")) "echo" eq_refl eq_refl eq_refl).
  - apply (proj1 (proj2 (proj2 (proj2 (icmp_type_validation blank (VStr "0"))))) 0 eq_refl);
      [discriminate | lia].
  - apply (proj1 (proj2 (proj2 (proj2 (icmp_type_validation blank (VStr "0"))))) 0 eq_refl);
      [discriminate | lia].
  - apply (proj1 (proj2 (proj2 (proj2 (icmp_type_validation blank (VInt 255))))) 255 eq_refl);
      [discriminate | lia].
  - apply (proj1 (proj2 (proj2 (proj2 (icmp_type_validation blank (VInt 255))))) 255 eq_refl);
      [discriminate | lia].
  - apply (proj1 (proj2 (proj2 (proj2 (proj2 (icmp_type_validation blank (VInt 256))))))
             256 eq_refl).
    right. lia.
  - apply (proj1 (proj2 (proj2 (proj2 (proj2 (icmp_type_validation blank (VStr "300"))))))
             300 eq_refl).
    right. lia.
  - apply (proj1 (proj1 (proj2 (proj2 (icmp_type_validation blank (VStr "300"))))
                    "300" 300 eq_refl eq_refl)).
  - apply (proj1 (proj2 (proj1 (proj2 (proj2 (icmp_type_validation blank (VStr "300"))))
                    "300" 300 eq_refl eq_refl))).
  - apply (proj1 (proj2 (proj2 (proj1 (proj2 (proj2 (icmp_type_validation blank (VStr "300"))))
                    "300" 300 eq_refl eq_refl)))).
  - apply (proj2 (proj2 (proj2 (proj1 (proj2 (proj2 (icmp_type_validation blank (VStr "300"))))
                    "300" 300 eq_refl eq_refl)))).
  - apply (proj2 (proj2 (proj2 (proj2 (proj2 (icmp_type_validation blank VNone)))))).
    reflexivity.
Defined.

(** *** Rendering *)

(** C3, at [IcmpObject(icmp_type='echo')]: the constructor accepts the
    missing code, and [cli_attributes] then raises [TypeError], because it
    passes the stored [None] to the check of the code, which starts with
    [int(value)]. *)
Theorem icmp_attributes_without_code_raise :
  IcmpObject.__init__ None (VStr "echo") None = Ok (IcmpObject.mk None None (VStr "echo"))
  /\ _verify_icmp_type (VStr "echo") true = Ok true
  /\ IcmpObject.cli_attributes (IcmpObject.mk None None (VStr "echo")) = Raise TypeError.
Proof. repeat split. Qed.

(** No instance without a code renders its attribute line. *)
Lemma icmp_attributes_need_code (self : IcmpObject.t) (line : string) :
  _icmp_code self = None -> IcmpObject.cli_attributes self <> Ok line.
Proof.
  intros Hc E. unfold IcmpObject.cli_attributes in E.
  apply bind_Ok in E. destruct E as (_ & _ & E).
  rewrite Hc in E. discriminate E.
Qed.

(** With a code, the line is [ service icmp <type> <code>]. *)
Lemma icmp_attributes_with_code (self : IcmpObject.t) (line : string) :
  IcmpObject.cli_attributes self = Ok line ->
  exists code,
    _icmp_code self = Some code /\ 1 <= code <= 255 /\
    line = " service icmp " ++ py_str (_icmp_type self) ++ " " ++ str_of_int code.
Proof.
  unfold IcmpObject.cli_attributes. intro E.
  apply bind_Ok in E. destruct E as (_ & _ & E).
  apply bind_Ok in E. destruct E as (b & Hb & E).
  cbn [fget icmp_type icmp_code setter property_of] in E.
  unfold icmp_type_fget, icmp_code_fget in E.
  unfold _verify_icmp_code in Hb.
  destruct (_icmp_code self) as [code|]; [|discriminate Hb].
  cbn [int_of_code bind] in Hb.
  destruct (Z.leb_spec 1 code), (Z.leb_spec code 255); try discriminate Hb.
  exists code. split; [reflexivity|]. split; [lia|].
  cbn [truthy_int fmt_int] in E.
  destruct (Z.eqb_spec code 0); [lia|]. cbn [negb] in E.
  injection E as <-. reflexivity.
Qed.

Lemma icmp_line_starts_with_space (self : IcmpObject.t) (line : string) :
  IcmpObject.cli_attributes self = Ok line -> first_char line = Some " "%char.
Proof.
  intro E. destruct (icmp_attributes_with_code _ _ E) as (code & _ & _ & ->).
  reflexivity.
Qed.

(** *** Names *)

Lemma icmp_set__name_same (self : IcmpObject.t) :
  set__name self (IcmpObject._name self) = self.
Proof. destruct self; reflexivity. Qed.

(** One level of nesting is all [generate_name] ever uses: with a type set
    it returns a non-empty name that does not depend on [_name] and is
    stored there. *)
Lemma icmp_generate_name_step (depth : nat) (self : IcmpObject.t) :
  truthy (_icmp_type self) = true ->
  exists n,
    truthy_str (Some n) = true /\
    forall x, generate_name_within (S depth) (set__name self x)
              = Ok (n, set__name self (Some n)).
Proof.
  intro Ht.
  exists (upper
            (if truthy_int (_icmp_code self)
             then ("SVC_ICMP_TYPE_" ++ py_str (_icmp_type self))
                    ++ "_CODE_" ++ fmt_int (_icmp_code self)
             else "SVC_ICMP_TYPE_" ++ py_str (_icmp_type self))).
  split.
  - destruct (truthy_int (_icmp_code self)); reflexivity.
  - intro x. cbn [generate_name_within].
    cbn [fget icmp_type icmp_code setter property_of].
    unfold icmp_type_fget, icmp_code_fget.
    cbn [set__name _icmp_type _icmp_code].
    rewrite Ht. cbn [py_assert bind name_fset].
    unfold name_fget. cbn [_name set__name].
    destruct (truthy_int (_icmp_code self)); reflexivity.
Qed.

Lemma icmp_generate_name_unset (self : IcmpObject.t) :
  truthy (_icmp_type self) = false ->
  IcmpObject.generate_name self
  = Raise (AssertionError "ICMP type attribute unset during name generation").
Proof.
  intro Ht. unfold IcmpObject.generate_name.
  change recursion_limit with (S 999). cbn [generate_name_within].
  cbn [fget icmp_type setter property_of]. unfold icmp_type_fget.
  rewrite Ht. reflexivity.
Qed.

Lemma icmp_generate_name_inv (self self' : IcmpObject.t) (n : string) :
  IcmpObject.generate_name self = Ok (n, self') ->
  truthy_str (Some n) = true /\ self' = set__name self (Some n) /\
  IcmpObject.generate_name self' = Ok (n, self').
Proof.
  intro E. destruct (truthy (_icmp_type self)) eqn:Ht.
  - destruct (icmp_generate_name_step 999 self Ht) as (m & Hm & Hgen).
    unfold IcmpObject.generate_name in *. change recursion_limit with (S 999) in *.
    pose proof (Hgen (_name self)) as H0. rewrite icmp_set__name_same in H0.
    rewrite H0 in E. injection E as <- <-.
    split; [exact Hm|]. split; [reflexivity|]. apply Hgen.
  - rewrite (icmp_generate_name_unset _ Ht) in E. discriminate E.
Qed.

Lemma icmp_cached_name_is_returned (self : IcmpObject.t) (n : string) :
  truthy_str (Some n) = true -> IcmpObject._name self = Some n ->
  IcmpObject.name self = Ok (n, self).
Proof.
  intros Hn Hc. unfold IcmpObject.name, _ServiceObject.name, name_fget.
  change (_ServiceObject._name self) with (IcmpObject._name self).
  rewrite Hc, Hn. reflexivity.
Qed.

Lemma icmp_name_inv (self self' : IcmpObject.t) (n : string) :
  IcmpObject.name self = Ok (n, self') ->
  truthy_str (Some n) = true /\ self' = set__name self (Some n).
Proof.
  unfold IcmpObject.name, _ServiceObject.name, name_fget.
  change (_ServiceObject._name self) with (IcmpObject._name self).
  change (_ServiceObject.generate_name self) with (IcmpObject.generate_name self).
  destruct (truthy_str (IcmpObject._name self)) eqn:Ht.
  - intro E. injection E as <- <-.
    destruct (IcmpObject._name self) as [s|] eqn:Hs; [|discriminate Ht].
    split; [exact Ht|]. cbn [fmt_str]. rewrite <- Hs. symmetry.
    apply icmp_set__name_same.
  - intro E. apply icmp_generate_name_inv in E. tauto.
Qed.

End IcmpFacts.

(** ** Across the classes *)

Section AcrossClasses.

Lemma network_line_starts_with_space (self : NetworkObject.t) (line : string) :
  NetworkObject.cli_attributes self = Ok line -> first_char line = Some " "%char.
Proof.
  unfold NetworkObject.cli_attributes.
  destruct (NetworkObject.type self) as [[]|]; [| | | |discriminate];
    intro E; repeat bind_inv E; apply Ok_inj in E; rewrite <- E; reflexivity.
Qed.

Lemma network_generate_name_inv (self self' : NetworkObject.t) (n : string) :
  NetworkObject.generate_name self = Ok (n, self') ->
  self' = NetworkObject.set_name self (Some n) /\
  NetworkObject.generate_name self' = Ok (n, self').
Proof.
  unfold NetworkObject.generate_name.
  destruct (NetworkObject.type self) as [[]|] eqn:Hty; [| | | |discriminate];
    intro E; repeat bind_inv E; apply Ok_pair_inj in E; destruct E as [<- <-];
    (split; [reflexivity|]);
    cbn [NetworkObject.type NetworkObject.ip NetworkObject.end_ip NetworkObject.fqdn
         NetworkObject.set_name];
    rewrite Hty;
    repeat match goal with
           | H : getattr _ _ = Ok _ |- _ => rewrite H; clear H
           end;
    reflexivity.
Qed.

(** C8: for each class, when [generate_name] returns a name, calling it
    again on the instance it leaves returns the same name and leaves the same
    instance.  For the service classes, moreover, a read of [name] that
    returns [n] leaves [n] in [_name], and every later read of [name], on
    whatever instance still holds [n] there, returns [n] and changes
    nothing. *)
Theorem generated_name_is_stable :
  (forall (self self' : NetworkObject.t) (n : string),
     NetworkObject.generate_name self = Ok (n, self') ->
     NetworkObject.generate_name self' = Ok (n, self')) /\
  (forall (self self' : _TcpOrUdpObject.t) (n : string),
     (_TcpOrUdpObject.generate_name self = Ok (n, self') ->
      _TcpOrUdpObject.generate_name self' = Ok (n, self') /\
      _TcpOrUdpObject._name self' = Some n) /\
     (_TcpOrUdpObject.name self = Ok (n, self') ->
      _TcpOrUdpObject._name self' = Some n /\
      forall later, _TcpOrUdpObject._name later = Some n ->
                    _TcpOrUdpObject.name later = Ok (n, later))) /\
  (forall (self self' : IcmpObject.t) (n : string),
     (IcmpObject.generate_name self = Ok (n, self') ->
      IcmpObject.generate_name self' = Ok (n, self') /\
      IcmpObject._name self' = Some n) /\
     (IcmpObject.name self = Ok (n, self') ->
      IcmpObject._name self' = Some n /\
      forall later, IcmpObject._name later = Some n ->
                    IcmpObject.name later = Ok (n, later))).
Proof.
  repeat apply conj.
  - intros self self' n E. apply (network_generate_name_inv _ _ _ E).
  - intros self self' n. split.
    + intro E. destruct (tcp_udp_generate_name_inv _ _ _ E) as (_ & -> & Hgen).
      split; [exact Hgen | reflexivity].
    + intro E. destruct (tcp_udp_name_inv _ _ _ E) as (Hn & ->).
      split; [reflexivity|].
      intros later Hl. apply tcp_udp_cached_name_is_returned; assumption.
  - intros self self' n. split.
    + intro E. destruct (icmp_generate_name_inv _ _ _ E) as (_ & -> & Hgen).
      split; [exact Hgen | reflexivity].
    + intro E. destruct (icmp_name_inv _ _ _ E) as (Hn & ->).
      split; [reflexivity|].
      intros later Hl. apply icmp_cached_name_is_returned; assumption.
Qed.

Lemma generated_name_is_stable_witness :
  NetworkObject.generate_name
    (NetworkObject.mk None (Some "HOST_10.1.1.5") (Some NetworkObject.HOST)
       (Some (ipaddress.mkIPv4Network 167837957 32)) None None)
  = Ok ("HOST_10.1.1.5",
        NetworkObject.mk None (Some "HOST_10.1.1.5") (Some NetworkObject.HOST)
          (Some (ipaddress.mkIPv4Network 167837957 32)) None None)
  /\ _TcpOrUdpObject.name
       (_TcpOrUdpObject.mk _TcpOrUdpObject.TcpObject (Some "SVC_TCP_DEST_EQ_443")
          None None None (Some _ServiceObject.LESS_THAN) (Some 1024) None)
     = Ok ("SVC_TCP_DEST_EQ_443",
           _TcpOrUdpObject.mk _TcpOrUdpObject.TcpObject (Some "SVC_TCP_DEST_EQ_443")
             None None None (Some _ServiceObject.LESS_THAN) (Some 1024) None)
  /\ IcmpObject.generate_name
       (IcmpObject.mk (Some "SVC_ICMP_TYPE_ECHO_CODE_40") (Some 40) (VStr "echo"))
     = Ok ("SVC_ICMP_TYPE_ECHO_CODE_40",
           IcmpObject.mk (Some "SVC_ICMP_TYPE_ECHO_CODE_40") (Some 40) (VStr "echo")).
Proof.
  repeat apply conj.
  - apply (proj1 generated_name_is_stable
             (NetworkObject.mk None None (Some NetworkObject.HOST)
                (Some (ipaddress.mkIPv4Network 167837957 32)) None None)).
    reflexivity.
  - apply (proj2 (proj1 (proj2 generated_name_is_stable)
                    (_TcpOrUdpObject.mk _TcpOrUdpObject.TcpObject None
                       None None None (Some _ServiceObject.SINGLE) (Some 443) None)
                    (_TcpOrUdpObject.mk _TcpOrUdpObject.TcpObject
                       (Some "SVC_TCP_DEST_EQ_443")
                       None None None (Some _ServiceObject.SINGLE) (Some 443) None)
                    "SVC_TCP_DEST_EQ_443")).
    + reflexivity.
    + reflexivity.
  - apply (proj1 (proj2 (proj2 generated_name_is_stable)
                    (IcmpObject.mk None (Some 40) (VStr "echo"))
                    (IcmpObject.mk (Some "SVC_ICMP_TYPE_ECHO_CODE_40") (Some 40)
                       (VStr "echo"))
                    "SVC_ICMP_TYPE_ECHO_CODE_40")).
    vm_compute. reflexivity.
Defined.

End AcrossClasses.

(** * Further properties of the module *)

(** ** Ports of TcpObject and UdpObject *)

Section TcpOrUdpPorts.

Import _ServiceObject _TcpOrUdpObject.

Lemma port_ok_dec (port : option Z) : {port_ok port} + {~ port_ok port}.
Proof.
  destruct port as [p|]; simpl; [|left; exact I].
  destruct (Z_le_dec 0 p), (Z_le_dec p 65535); (left; lia) || (right; lia).
Qed.

Lemma check_port_accepts (port : option Z) :
  port_ok port -> exists b, _check_port port = Ok b.
Proof.
  destruct port as [p|]; simpl; intro H; [|eexists; reflexivity].
  destruct (Z.leb_spec 0 p), (Z.leb_spec p 65535); try lia.
  eexists; reflexivity.
Qed.

Lemma check_port_rejects (port : option Z) :
  ~ port_ok port -> _check_port port = Raise (ValueError "Port value is out of range").
Proof.
  destruct port as [p|]; simpl; intro H; [|now elim H].
  destruct (Z.leb_spec 0 p), (Z.leb_spec p 65535); try lia; reflexivity.
Qed.

Lemma port_setters_check_bounds_aux (self : _TcpOrUdpObject.t) (port : option Z) :
  (port_ok port ->
   assign source_port self port = Ok (set__source_port self port) /\
   assign source_end_port self port = Ok (set__source_end_port self port) /\
   assign dest_port self port = Ok (set__dest_port self port) /\
   assign dest_end_port self port = Ok (set__dest_end_port self port)) /\
  (~ port_ok port ->
   assign source_port self port = Raise (ValueError "Port value is out of range") /\
   assign source_end_port self port = Raise (ValueError "Port value is out of range") /\
   assign dest_port self port = Raise (ValueError "Port value is out of range") /\
   assign dest_end_port self port = Raise (ValueError "Port value is out of range")).
Proof.
  split; intro H.
  - destruct (check_port_accepts _ H) as (b & Hb).
    unfold assign, source_port, source_end_port, dest_port, dest_end_port, setter,
      source_port_fset, source_end_port_fset, dest_port_fset, dest_end_port_fset.
    cbn [fset]. rewrite Hb. repeat split.
  - pose proof (check_port_rejects _ H) as Hb.
    unfold assign, source_port, source_end_port, dest_port, dest_end_port, setter,
      source_port_fset, source_end_port_fset, dest_port_fset, dest_end_port_fset.
    cbn [fset]. rewrite Hb. repeat split.
Qed.

(** Each of the four port setters stores [None] and every integer of
    0..65535, and raises [ValueError] on every other integer, whatever the
    instance and whatever the selector types. *)
Theorem port_setters_check_bounds (self : _TcpOrUdpObject.t) (port : option Z) :
  (port_ok port ->
   assign source_port self port = Ok (set__source_port self port) /\
   assign source_end_port self port = Ok (set__source_end_port self port) /\
   assign dest_port self port = Ok (set__dest_port self port) /\
   assign dest_end_port self port = Ok (set__dest_end_port self port)) /\
  (~ port_ok port ->
   assign source_port self port = Raise (ValueError "Port value is out of range") /\
   assign source_end_port self port = Raise (ValueError "Port value is out of range") /\
   assign dest_port self port = Raise (ValueError "Port value is out of range") /\
   assign dest_end_port self port = Raise (ValueError "Port value is out of range")).
Proof. exact (port_setters_check_bounds_aux self port). Qed.

Lemma port_setters_check_bounds_witness :
  assign dest_port
    (_TcpOrUdpObject.mk TcpObject None None None None None None None) (Some 65535)
  = Ok (_TcpOrUdpObject.mk TcpObject None None None None None (Some 65535) None)
  /\ assign source_end_port
       (_TcpOrUdpObject.mk TcpObject None None None None None None None) (Some 65536)
     = Raise (ValueError "Port value is out of range").
Proof.
  split.
  - apply (proj1 (port_setters_check_bounds
                    (_TcpOrUdpObject.mk TcpObject None None None None None None None)
                    (Some 65535))).
    simpl. lia.
  - apply (proj2 (port_setters_check_bounds
                    (_TcpOrUdpObject.mk TcpObject None None None None None None None)
                    (Some 65536))).
    simpl. lia.
Defined.

Lemma constructor_checks_ports_only_aux
    (c : subclass) (sst dst : option PortSelecterType)
    (sp sep dp dep : option Z) (name : option string) :
  (port_ok sp /\ port_ok sep /\ port_ok dp /\ port_ok dep ->
   _TcpOrUdpObject.__init__ c sst sp sep dst dp dep name
   = Ok (_TcpOrUdpObject.mk c name sst sp sep dst dp dep)) /\
  (~ (port_ok sp /\ port_ok sep /\ port_ok dp /\ port_ok dep) ->
   _TcpOrUdpObject.__init__ c sst sp sep dst dp dep name
   = Raise (ValueError "Port value is out of range")).
Proof.
  unfold _TcpOrUdpObject.__init__.
  unfold assign, source_port, source_end_port, dest_port, dest_end_port, setter,
    source_port_fset, source_end_port_fset, dest_port_fset, dest_end_port_fset.
  cbn [fset].
  split.
  - intros (H1 & H2 & H3 & H4).
    destruct (check_port_accepts _ H1) as (b1 & ->).
    destruct (check_port_accepts _ H2) as (b2 & ->).
    destruct (check_port_accepts _ H3) as (b3 & ->).
    destruct (check_port_accepts _ H4) as (b4 & ->).
    reflexivity.
  - intro H.
    destruct (port_ok_dec sp) as [H1|H1];
      [destruct (check_port_accepts _ H1) as (b1 & ->)
      | rewrite (check_port_rejects _ H1); reflexivity].
    destruct (port_ok_dec sep) as [H2|H2];
      [destruct (check_port_accepts _ H2) as (b2 & ->)
      | rewrite (check_port_rejects _ H2); reflexivity].
    destruct (port_ok_dec dp) as [H3|H3];
      [destruct (check_port_accepts _ H3) as (b3 & ->)
      | rewrite (check_port_rejects _ H3); reflexivity].
    destruct (port_ok_dec dep) as [H4|H4];
      [now elim H | rewrite (check_port_rejects _ H4); reflexivity].
Qed.

(** The constructor checks the four ports and nothing else: it returns
    exactly when each port is [None] or lies in 0..65535, the instance then
    holds the arguments as given, whatever the selector types (a RANGE
    selector without ports included); otherwise it raises [ValueError]. *)
Theorem constructor_checks_ports_only
    (c : subclass) (sst dst : option PortSelecterType)
    (sp sep dp dep : option Z) (name : option string) :
  (port_ok sp /\ port_ok sep /\ port_ok dp /\ port_ok dep ->
   _TcpOrUdpObject.__init__ c sst sp sep dst dp dep name
   = Ok (_TcpOrUdpObject.mk c name sst sp sep dst dp dep)) /\
  (~ (port_ok sp /\ port_ok sep /\ port_ok dp /\ port_ok dep) ->
   _TcpOrUdpObject.__init__ c sst sp sep dst dp dep name
   = Raise (ValueError "Port value is out of range")).
Proof. exact (constructor_checks_ports_only_aux c sst dst sp sep dp dep name). Qed.

Lemma constructor_checks_ports_only_witness :
  _TcpOrUdpObject.__init__ UdpObject (Some RANGE) None None None (Some 0) None None
  = Ok (_TcpOrUdpObject.mk UdpObject None (Some RANGE) None None None (Some 0) None)
  /\ _TcpOrUdpObject.__init__ UdpObject None (Some 53) None None (Some (-1)) None None
     = Raise (ValueError "Port value is out of range").
Proof.
  split.
  - apply (proj1 (constructor_checks_ports_only UdpObject (Some RANGE) None
                    None None (Some 0) None None)).
    simpl. repeat split; lia.
  - apply (proj2 (constructor_checks_ports_only UdpObject None None
                    (Some 53) None (Some (-1)) None None)).
    simpl. lia.
Defined.

(** The ports an instance holds stay within bounds: the constructor
    establishes it, and the four port setters, [generate_name], the [name]
    property and [cli_definition] keep it. *)
Theorem ports_stay_valid :
  (forall c sst sp sep dst dp dep name self,
     _TcpOrUdpObject.__init__ c sst sp sep dst dp dep name = Ok self ->
     ports_valid self) /\
  (forall self self' port,
     ports_valid self ->
     assign source_port self port = Ok self' \/
     assign source_end_port self port = Ok self' \/
     assign dest_port self port = Ok self' \/
     assign dest_end_port self port = Ok self' ->
     ports_valid self') /\
  (forall self self' text,
     ports_valid self ->
     _TcpOrUdpObject.generate_name self = Ok (text, self') \/
     _TcpOrUdpObject.name self = Ok (text, self') \/
     _TcpOrUdpObject.cli_definition self = Ok (text, self') ->
     ports_valid self').
Proof.
  repeat apply conj.
  - intros c sst sp sep dst dp dep name self E.
    destruct (port_ok_dec sp) as [H1|H1]; [|exfalso].
    destruct (port_ok_dec sep) as [H2|H2]; [|exfalso].
    destruct (port_ok_dec dp) as [H3|H3]; [|exfalso].
    destruct (port_ok_dec dep) as [H4|H4]; [|exfalso].
    + rewrite (proj1 (constructor_checks_ports_only_aux c sst dst sp sep dp dep name)) in E
        by auto.
      apply Ok_inj in E. subst self. unfold ports_valid. auto.
    + rewrite (proj2 (constructor_checks_ports_only_aux c sst dst sp sep dp dep name)) in E
        by tauto.
      discriminate E.
    + rewrite (proj2 (constructor_checks_ports_only_aux c sst dst sp sep dp dep name)) in E
        by tauto.
      discriminate E.
    + rewrite (proj2 (constructor_checks_ports_only_aux c sst dst sp sep dp dep name)) in E
        by tauto.
      discriminate E.
    + rewrite (proj2 (constructor_checks_ports_only_aux c sst dst sp sep dp dep name)) in E
        by tauto.
      discriminate E.
  - intros self self' port (H1 & H2 & H3 & H4) E.
    destruct (port_ok_dec port) as [Hp|Hp].
    + destruct (proj1 (port_setters_check_bounds_aux self port) Hp) as (E1 & E2 & E3 & E4).
      rewrite E1, E2, E3, E4 in E.
      destruct E as [E|[E|[E|E]]]; apply Ok_inj in E; subst self';
        unfold ports_valid; auto.
    + destruct (proj2 (port_setters_check_bounds_aux self port) Hp) as (E1 & E2 & E3 & E4).
      rewrite E1, E2, E3, E4 in E.
      destruct E as [E|[E|[E|E]]]; discriminate E.
  - intros self self' text Hv [E|[E|E]].
    + apply tcp_udp_generate_name_inv in E. destruct E as (_ & -> & _). exact Hv.
    + apply tcp_udp_name_inv in E. destruct E as (_ & ->). exact Hv.
    + apply tcp_udp_cli_definition_inv in E. destruct E as (n & _ & ->). exact Hv.
Qed.

Lemma ports_stay_valid_witness :
  ports_valid (_TcpOrUdpObject.mk TcpObject None None (Some 1) None None (Some 443) None)
  /\ ports_valid
       (_TcpOrUdpObject.mk TcpObject None None (Some 1) None None (Some 80) None).
Proof.
  assert (H0 : ports_valid
                 (_TcpOrUdpObject.mk TcpObject None None (Some 1) None None (Some 443) None)).
  { apply (proj1 ports_stay_valid TcpObject None (Some 1) None None (Some 443) None None).
    reflexivity. }
  split; [exact H0|].
  apply (proj1 (proj2 ports_stay_valid)
           (_TcpOrUdpObject.mk TcpObject None None (Some 1) None None (Some 443) None)
           _ (Some 80) H0).
  right. right. left. reflexivity.
Defined.

End TcpOrUdpPorts.

(** ** Rendering of TcpObject and UdpObject *)

Section TcpOrUdpRendering.

Import _ServiceObject _TcpOrUdpObject.

Lemma dest_clause_raises (self : _TcpOrUdpObject.t) (e : exn) :
  dest_clause self = Raise e -> exists msg, e = AssertionError msg.
Proof.
  unfold dest_clause.
  destruct (dest_port_selecter_type self) as [[]|]; try discriminate;
    match goal with
    | |- bind (py_assert ?c ?m) _ = _ -> _ =>
        destruct c; cbn [py_assert bind]; [discriminate|];
        intro E; injection E as <-; eexists; reflexivity
    end.
Qed.

Lemma tcp_udp_attributes_raise_assertion (self : _TcpOrUdpObject.t) (e : exn) :
  _TcpOrUdpObject.cli_attributes self = Raise e -> exists msg, e = AssertionError msg.
Proof.
  unfold _TcpOrUdpObject.cli_attributes.
  rewrite !selecter_valid_true. cbn [py_assert bind].
  destruct (source_clause self) as [source|e1] eqn:Hs; cbn [bind].
  - destruct (dest_clause self) as [dest|e2] eqn:Hd; cbn [bind]; [discriminate|].
    intro E. injection E as <-. exact (dest_clause_raises _ _ Hd).
  - intro E. injection E as <-. exact (source_clause_raises _ _ Hs).
Qed.

Lemma tcp_udp_name_total (self : _TcpOrUdpObject.t) :
  exists n,
    truthy_str (Some n) = true /\
    _TcpOrUdpObject.name self = Ok (n, set__name self (Some n)).
Proof.
  destruct (truthy_str (_TcpOrUdpObject._name self)) eqn:Ht.
  - destruct (_TcpOrUdpObject._name self) as [s|] eqn:Hs; [|discriminate Ht].
    exists s. split; [exact Ht|].
    rewrite <- Hs, set__name_same.
    apply tcp_udp_cached_name_is_returned; assumption.
  - destruct (tcp_udp_generate_name_total self) as (n & Hn & Hgen).
    exists n. split; [exact Hn|].
    unfold _TcpOrUdpObject.name, _ServiceObject.name, name_fget.
    change (_ServiceObject._name self) with (_TcpOrUdpObject._name self).
    change (_ServiceObject.generate_name self) with (_TcpOrUdpObject.generate_name self).
    rewrite Ht. rewrite <- (set__name_same self) at 1. apply Hgen.
Qed.

Lemma tcp_udp_cli_full_aux (self : _TcpOrUdpObject.t) :
  exists n,
    truthy_str (Some n) = true /\
    _TcpOrUdpObject.name self = Ok (n, set__name self (Some n)) /\
    _TcpOrUdpObject.cli_definition self
    = Ok ("object service " ++ n, set__name self (Some n)) /\
    _TcpOrUdpObject.cli_full self
    = (line <- _TcpOrUdpObject.cli_attributes self ;;
       Ok (["object service " ++ n; line; "!"], set__name self (Some n))).
Proof.
  destruct (tcp_udp_name_total self) as (n & Hn & Hname).
  exists n. split; [exact Hn|]. split; [exact Hname|].
  assert (Hdef : _TcpOrUdpObject.cli_definition self
                 = Ok ("object service " ++ n, set__name self (Some n))).
  { unfold _TcpOrUdpObject.cli_definition, _ServiceObject.cli_definition.
    fold (_TcpOrUdpObject.name self). rewrite Hname. cbn [bind fst snd].
    change (truthy (VStr n)) with (truthy_str (Some n)). rewrite Hn.
    cbn [negb bind].
    change (_ServiceObject.name (set__name self (Some n)))
      with (_TcpOrUdpObject.name (set__name self (Some n))).
    rewrite (tcp_udp_cached_name_is_returned (set__name self (Some n)) n Hn eq_refl).
    reflexivity. }
  split; [exact Hdef|].
  unfold _TcpOrUdpObject.cli_full, _ServiceObject.cli_full.
  change (_ServiceObject.cli_definition self)
    with (_TcpOrUdpObject.cli_definition self).
  rewrite Hdef. cbn [bind fst snd].
  change (_ServiceObject.cli_attributes (set__name self (Some n)))
    with (_TcpOrUdpObject.cli_attributes (set__name self (Some n))).
  rewrite tcp_udp_cli_attributes_ignores_name. reflexivity.
Qed.

(** For every instance, [cli_definition] returns: it yields
    [object service <n>] for a non-empty name [n], the one [name] returns,
    and leaves [n] in [_name]; and [cli_full] is [cli_attributes] put between
    that line and [!]: it returns the three lines when [cli_attributes]
    returns, and raises what [cli_attributes] raises. *)
Theorem tcp_udp_cli_full_composes (self : _TcpOrUdpObject.t) :
  exists n,
    truthy_str (Some n) = true /\
    _TcpOrUdpObject.name self = Ok (n, set__name self (Some n)) /\
    _TcpOrUdpObject.cli_definition self
    = Ok ("object service " ++ n, set__name self (Some n)) /\
    _TcpOrUdpObject.cli_full self
    = (line <- _TcpOrUdpObject.cli_attributes self ;;
       Ok (["object service " ++ n; line; "!"], set__name self (Some n))).
Proof. exact (tcp_udp_cli_full_aux self). Qed.

(** Rendering a TCP or UDP object raises nothing but [AssertionError]:
    whatever [cli_attributes] or [cli_full] raises is one. *)
Theorem tcp_udp_rendering_raises_only_assertions (self : _TcpOrUdpObject.t) (e : exn) :
  _TcpOrUdpObject.cli_attributes self = Raise e \/
  _TcpOrUdpObject.cli_full self = Raise e ->
  exists msg, e = AssertionError msg.
Proof.
  intros [E|E].
  - exact (tcp_udp_attributes_raise_assertion _ _ E).
  - destruct (tcp_udp_cli_full_aux self) as (n & _ & _ & _ & Hfull).
    rewrite Hfull in E.
    destruct (_TcpOrUdpObject.cli_attributes self) as [line|e'] eqn:Ha;
      cbn [bind] in E; [discriminate E|].
    injection E as <-. exact (tcp_udp_attributes_raise_assertion _ _ Ha).
Qed.

Lemma tcp_udp_rendering_raises_only_assertions_witness :
  exists msg, AssertionError "Source port not defined" = AssertionError msg.
Proof.
  apply (tcp_udp_rendering_raises_only_assertions
           (_TcpOrUdpObject.mk TcpObject None (Some LESS_THAN) None None None None None)).
  right. reflexivity.
Defined.

(** Port 0 passes every setter, yet a selector whose start port is 0 does not
    render: the assertions test the truth value of the port, so
    [cli_attributes] raises [AssertionError] as it does for a port that is
    not set. *)
Theorem port_zero_is_stored_but_not_rendered
    (self : _TcpOrUdpObject.t) (sel : PortSelecterType) :
  assign source_port self (Some 0) = Ok (set__source_port self (Some 0)) /\
  assign dest_port self (Some 0) = Ok (set__dest_port self (Some 0)) /\
  (source_port_selecter_type self = Some sel -> _source_port self = Some 0 ->
   exists msg, _TcpOrUdpObject.cli_attributes self = Raise (AssertionError msg)) /\
  (dest_port_selecter_type self = Some sel -> _dest_port self = Some 0 ->
   exists msg, _TcpOrUdpObject.cli_attributes self = Raise (AssertionError msg)).
Proof.
  split; [reflexivity|]. split; [reflexivity|].
  split; intros Hsel Hzero; unfold _TcpOrUdpObject.cli_attributes;
    rewrite !selecter_valid_true; cbn [py_assert bind].
  - unfold source_clause. rewrite Hsel.
    cbn [fget source_port source_end_port setter property_of].
    unfold source_port_fget. rewrite Hzero.
    destruct sel; eexists; reflexivity.
  - assert (Hd : exists msg, dest_clause self = Raise (AssertionError msg)).
    { unfold dest_clause. rewrite Hsel.
      cbn [fget dest_port dest_end_port setter property_of]. unfold dest_port_fget.
      rewrite Hzero. destruct sel; eexists; reflexivity. }
    destruct Hd as (msg & Hd).
    destruct (source_clause self) as [source|e] eqn:Hs; cbn [bind].
    + rewrite Hd. exists msg. reflexivity.
    + destruct (source_clause_raises _ _ Hs) as (m & ->). exists m. reflexivity.
Qed.

Lemma port_zero_is_stored_but_not_rendered_witness :
  exists msg,
    _TcpOrUdpObject.cli_attributes
      (_TcpOrUdpObject.mk UdpObject None None None None (Some SINGLE) (Some 0) None)
    = Raise (AssertionError msg).
Proof.
  apply (proj2 (proj2 (proj2 (port_zero_is_stored_but_not_rendered
           (_TcpOrUdpObject.mk UdpObject None None None None (Some SINGLE) (Some 0) None)
           SINGLE)))); reflexivity.
Defined.

(** What [_dest_end_port] holds never reaches the output: replacing it by any
    other value leaves the generated name and the attribute line as they
    are. *)
Theorem dest_end_port_slot_is_never_rendered
    (self : _TcpOrUdpObject.t) (other : option Z) :
  _TcpOrUdpObject.cli_attributes (set__dest_end_port self other)
  = _TcpOrUdpObject.cli_attributes self /\
  exists n,
    _TcpOrUdpObject.generate_name self = Ok (n, set__name self (Some n)) /\
    _TcpOrUdpObject.generate_name (set__dest_end_port self other)
    = Ok (n, set__name (set__dest_end_port self other) (Some n)).
Proof.
  split; [reflexivity|].
  unfold _TcpOrUdpObject.generate_name.
  cbn [cls source_port_selecter_type dest_port_selecter_type set__dest_end_port
       fget source_port source_end_port dest_port dest_end_port setter property_of].
  unfold source_port_fget, source_end_port_fget, dest_port_fget.
  cbn [_source_port _source_end_port _dest_port].
  eexists. split; reflexivity.
Qed.

End TcpOrUdpRendering.

(** ** Validation and rendering of IcmpObject *)

Section IcmpValidation.

Import _ServiceObject IcmpObject.

Lemma icmp_code_ok_dec (code : option Z) : {icmp_code_ok code} + {~ icmp_code_ok code}.
Proof.
  destruct code as [c|]; simpl; [|left; exact I].
  destruct (Z_le_dec 1 c), (Z_le_dec c 255); (left; lia) || (right; lia).
Qed.

Lemma assign_icmp_code_accepts (self : IcmpObject.t) (code : option Z) :
  icmp_code_ok code -> assign icmp_code self code = Ok (set__icmp_code self code).
Proof.
  destruct code as [c|]; simpl; intro H; [|reflexivity].
  unfold assign, icmp_code, setter. cbn [fset]. unfold icmp_code_fset, _verify_icmp_code.
  cbn [int_of_code bind].
  destruct (Z.leb_spec 1 c), (Z.leb_spec c 255); try lia. reflexivity.
Qed.

Lemma assign_icmp_code_rejects (self : IcmpObject.t) (code : option Z) :
  ~ icmp_code_ok code ->
  assign icmp_code self code = Raise (ValueError "The given ICMP code is invalid").
Proof.
  destruct code as [c|]; simpl; intro H; [|now elim H].
  unfold assign, icmp_code, setter. cbn [fset]. unfold icmp_code_fset, _verify_icmp_code.
  cbn [int_of_code bind].
  destruct (Z.leb_spec 1 c), (Z.leb_spec c 255); try lia; reflexivity.
Qed.

(** The [icmp_code] setter stores [None] and every integer of 1..255, and
    raises [ValueError] on every other integer, 0 included, leaving nothing
    stored. *)
Theorem icmp_code_setter_checks_bounds (self : IcmpObject.t) (code : option Z) :
  (icmp_code_ok code ->
   assign icmp_code self code = Ok (set__icmp_code self code)) /\
  (~ icmp_code_ok code ->
   assign icmp_code self code = Raise (ValueError "The given ICMP code is invalid")).
Proof.
  split; [apply assign_icmp_code_accepts | apply assign_icmp_code_rejects].
Qed.

Lemma icmp_code_setter_checks_bounds_witness :
  assign icmp_code (IcmpObject.mk None None VNone) (Some 255)
  = Ok (IcmpObject.mk None (Some 255) VNone)
  /\ assign icmp_code (IcmpObject.mk None None VNone) (Some 0)
     = Raise (ValueError "The given ICMP code is invalid").
Proof.
  split.
  - apply (proj1 (icmp_code_setter_checks_bounds (IcmpObject.mk None None VNone)
                    (Some 255))).
    simpl. lia.
  - apply (proj2 (icmp_code_setter_checks_bounds (IcmpObject.mk None None VNone)
                    (Some 0))).
    simpl. lia.
Defined.

(** With [raise_error] false the two checks return [False] for a number out
    of range instead of raising; the flag does not cover a missing value: the
    check of the code still raises [TypeError] on [None], and the check of
    the type still raises [ValueError] on [None] and on the integer 0. *)
Theorem raise_error_covers_range_only :
  (forall z, _verify_icmp_code (Some z) false = Ok ((1 <=? z) && (z <=? 255))) /\
  (forall flag, _verify_icmp_code None flag = Raise TypeError) /\
  (forall value n,
     numeric_value value = Some n -> value <> VInt 0 ->
     _verify_icmp_type value false = Ok ((0 <=? n) && (n <=? 255))) /\
  (forall flag,
     _verify_icmp_type VNone flag = Raise (ValueError "ICMP Type not set") /\
     _verify_icmp_type (VInt 0) flag = Raise (ValueError "ICMP Type not set")).
Proof.
  repeat apply conj.
  - intro z. unfold _verify_icmp_code. cbn [int_of_code bind].
    destruct ((1 <=? z) && (z <=? 255)); reflexivity.
  - reflexivity.
  - intros value n Hn Hz. unfold _verify_icmp_type.
    destruct value as [|z|s]; cbn [numeric_value] in Hn.
    + discriminate Hn.
    + injection Hn as ->. cbn [isinstance_str andb truthy py_int bind].
      destruct (Z.eqb_spec n 0) as [->|_]; [now elim Hz|]. cbn [negb].
      destruct ((0 <=? n) && (n <=? 255)); reflexivity.
    + destruct (isnumeric s) eqn:Hs; [|discriminate Hn]. injection Hn as <-.
      cbn [isinstance_str py_str andb py_int]. rewrite Hs.
      cbn [negb]. rewrite (isnumeric_nonempty _ Hs). cbn [negb bind].
      destruct ((0 <=? int_of_digits s) && (int_of_digits s <=? 255)); reflexivity.
  - intro flag. split; reflexivity.
Qed.

Lemma raise_error_covers_range_only_witness :
  _verify_icmp_type (VStr "256") false = Ok false.
Proof.
  apply (proj1 (proj2 (proj2 raise_error_covers_range_only)) (VStr "256") 256).
  - reflexivity.
  - discriminate.
Defined.

Lemma assign_icmp_code_inv (self self' : IcmpObject.t) (code : option Z) :
  assign icmp_code self code = Ok self' ->
  icmp_code_ok code /\ self' = set__icmp_code self code.
Proof.
  intro E. destruct (icmp_code_ok_dec code) as [H|H].
  - rewrite (assign_icmp_code_accepts _ _ H) in E. apply Ok_inj in E. auto.
  - rewrite (assign_icmp_code_rejects _ _ H) in E. discriminate E.
Qed.

Lemma verify_icmp_type_Ok (value : pyval) (b : bool) :
  _verify_icmp_type value true = Ok b -> b = true /\ icmp_type_ok value /\ value <> VNone.
Proof.
  unfold _verify_icmp_type. destruct value as [|z|s].
  - discriminate.
  - cbn [isinstance_str andb truthy py_int bind].
    destruct (Z.eqb_spec z 0); cbn [negb]; [discriminate|].
    destruct (Z.leb_spec 0 z), (Z.leb_spec z 255); cbn [andb]; try discriminate.
    intro E. apply Ok_inj in E. subst b.
    split; [reflexivity|]. split; [simpl; lia | discriminate].
  - cbn [isinstance_str py_str andb py_int].
    destruct (isnumeric s) eqn:Hs; cbn [negb].
    + rewrite (isnumeric_nonempty _ Hs). cbn [negb bind].
      destruct (Z.leb_spec 0 (int_of_digits s)), (Z.leb_spec (int_of_digits s) 255);
        cbn [andb]; try discriminate.
      intro E. apply Ok_inj in E. subst b.
      split; [reflexivity|]. split; [simpl; right; lia | discriminate].
    + intro E. apply Ok_inj in E. subst b.
      split; [reflexivity|]. split; [simpl; left; exact Hs | discriminate].
Qed.

Lemma assign_icmp_type_inv (self self' : IcmpObject.t) (value : pyval) :
  assign icmp_type self value = Ok self' ->
  icmp_type_ok value /\ self' = set__icmp_type self value.
Proof.
  destruct value as [|z|s] eqn:Hv.
  - intro E. apply Ok_inj in E. split; [exact I | auto].
  - rewrite icmp_type_setter by discriminate. intro E.
    destruct (_verify_icmp_type (VInt z) true) as [b|e] eqn:Hb; [|discriminate E].
    destruct (verify_icmp_type_Ok _ _ Hb) as (-> & Hok & _).
    cbn [bind] in E. apply Ok_inj in E. auto.
  - rewrite icmp_type_setter by discriminate. intro E.
    destruct (_verify_icmp_type (VStr s) true) as [b|e] eqn:Hb; [|discriminate E].
    destruct (verify_icmp_type_Ok _ _ Hb) as (-> & Hok & _).
    cbn [bind] in E. apply Ok_inj in E. auto.
Qed.

(** What the two slots hold stays valid: after the constructor, and after any
    assignment through the two setters, [_icmp_code] is [None] or an integer
    of 1..255 and [_icmp_type] is [None], an integer of 1..255, a string that
    is not numeric or a numeric string that reads as 0..255; generating or
    reading the name changes neither. *)
Theorem icmp_slots_stay_valid :
  (forall name value code self,
     IcmpObject.__init__ name value code = Ok self ->
     icmp_code_ok (_icmp_code self) /\ icmp_type_ok (_icmp_type self)) /\
  (forall self self' code,
     icmp_code_ok (_icmp_code self) /\ icmp_type_ok (_icmp_type self) ->
     assign icmp_code self code = Ok self' ->
     icmp_code_ok (_icmp_code self') /\ icmp_type_ok (_icmp_type self')) /\
  (forall self self' value,
     icmp_code_ok (_icmp_code self) /\ icmp_type_ok (_icmp_type self) ->
     assign icmp_type self value = Ok self' ->
     icmp_code_ok (_icmp_code self') /\ icmp_type_ok (_icmp_type self')) /\
  (forall self self' n,
     IcmpObject.generate_name self = Ok (n, self') \/
     IcmpObject.name self = Ok (n, self') ->
     _icmp_code self' = _icmp_code self /\ _icmp_type self' = _icmp_type self).
Proof.
  repeat apply conj.
  - intros name value code self E. unfold IcmpObject.__init__ in E.
    cbn [name_fset bind] in E.
    apply bind_Ok in E. destruct E as (s1 & H1 & H2).
    apply assign_icmp_code_inv in H1. destruct H1 as (Hc & ->).
    apply assign_icmp_type_inv in H2. destruct H2 as (Ht & ->).
    split; assumption.
  - intros self self' code (Hc & Ht) E.
    apply assign_icmp_code_inv in E. destruct E as (Hc' & ->). split; assumption.
  - intros self self' value (Hc & Ht) E.
    apply assign_icmp_type_inv in E. destruct E as (Ht' & ->). split; assumption.
  - intros self self' n [E|E].
    + apply icmp_generate_name_inv in E. destruct E as (_ & -> & _). split; reflexivity.
    + apply icmp_name_inv in E. destruct E as (_ & ->). split; reflexivity.
Qed.

Lemma icmp_slots_stay_valid_witness :
  icmp_code_ok (Some 40) /\ icmp_type_ok (VStr "echo").
Proof.
  apply (proj1 icmp_slots_stay_valid None (VStr "echo") (Some 40)
           (IcmpObject.mk None (Some 40) (VStr "echo"))).
  reflexivity.
Defined.

(** [cli_attributes] returns exactly when the stored type passes the check
    and a code of 1..255 is stored; the line is then
    [ service icmp <type> <code>]. *)
Theorem icmp_attributes_render_exactly (self : IcmpObject.t) (line : string) :
  IcmpObject.cli_attributes self = Ok line <->
  exists code,
    _icmp_code self = Some code /\ 1 <= code <= 255 /\
    _verify_icmp_type (_icmp_type self) true = Ok true /\
    line = " service icmp " ++ py_str (_icmp_type self) ++ " " ++ str_of_int code.
Proof.
  split.
  - intro E. destruct (icmp_attributes_with_code _ _ E) as (code & Hc & Hr & Hl).
    exists code. repeat (split; [assumption|]). split; [|exact Hl].
    unfold IcmpObject.cli_attributes in E.
    cbn [fget icmp_type setter property_of] in E. unfold icmp_type_fget in E.
    destruct (_verify_icmp_type (_icmp_type self) true) as [b|e] eqn:Hb;
      [|discriminate E].
    destruct (verify_icmp_type_Ok _ _ Hb) as (-> & _). reflexivity.
  - intros (code & Hc & Hr & Hv & ->).
    unfold IcmpObject.cli_attributes.
    cbn [fget icmp_type icmp_code setter property_of].
    unfold icmp_type_fget, icmp_code_fget.
    rewrite Hv, Hc. unfold _verify_icmp_code. cbn [int_of_code bind truthy_int fmt_int].
    destruct (Z.leb_spec 1 code), (Z.leb_spec code 255); try lia. cbn [andb].
    destruct (Z.eqb_spec code 0); [lia|]. reflexivity.
Qed.

Lemma icmp_attributes_render_exactly_witness :
  IcmpObject.cli_attributes (IcmpObject.mk None (Some 3) (VInt 8)) = Ok " service icmp 8 3".
Proof.
  apply (proj2 (icmp_attributes_render_exactly (IcmpObject.mk None (Some 3) (VInt 8))
                  " service icmp 8 3")).
  exists 3. repeat split; lia.
Defined.

End IcmpValidation.

(** ** Names and lines of IcmpObject *)

Section IcmpNames.

Import _ServiceObject IcmpObject.

Lemma prefix_empty (s : string) : String.prefix "" s = true.
Proof. destruct s; reflexivity. Qed.

Lemma upper_char_idempotent (c : ascii) : upper_char (upper_char c) = upper_char c.
Proof. destruct c as [[] [] [] [] [] [] [] []]; reflexivity. Qed.

Lemma upper_idempotent (s : string) : upper (upper s) = upper s.
Proof.
  induction s as [|c s IH]; simpl; [reflexivity|].
  rewrite upper_char_idempotent, IH. reflexivity.
Qed.

Lemma icmp_generate_name_within_explicit (depth : nat) (self : IcmpObject.t) :
  truthy (_icmp_type self) = true ->
  generate_name_within (S depth) self
  = Ok (upper (if truthy_int (_icmp_code self)
               then ("SVC_ICMP_TYPE_" ++ py_str (_icmp_type self))
                      ++ "_CODE_" ++ fmt_int (_icmp_code self)
               else "SVC_ICMP_TYPE_" ++ py_str (_icmp_type self)),
        set__name self
          (Some (upper (if truthy_int (_icmp_code self)
                        then ("SVC_ICMP_TYPE_" ++ py_str (_icmp_type self))
                               ++ "_CODE_" ++ fmt_int (_icmp_code self)
                        else "SVC_ICMP_TYPE_" ++ py_str (_icmp_type self))))).
Proof.
  intro Ht. cbn [generate_name_within].
  cbn [fget icmp_type icmp_code setter property_of].
  unfold icmp_type_fget, icmp_code_fget.
  rewrite Ht. cbn [py_assert bind name_fset].
  unfold name_fget. cbn [IcmpObject._name set__name].
  destruct (truthy_int (_icmp_code self)); reflexivity.
Qed.

Lemma icmp_generate_name_explicit (self : IcmpObject.t) :
  truthy (_icmp_type self) = true ->
  IcmpObject.generate_name self
  = Ok (upper (if truthy_int (_icmp_code self)
               then ("SVC_ICMP_TYPE_" ++ py_str (_icmp_type self))
                      ++ "_CODE_" ++ fmt_int (_icmp_code self)
               else "SVC_ICMP_TYPE_" ++ py_str (_icmp_type self)),
        set__name self
          (Some (upper (if truthy_int (_icmp_code self)
                        then ("SVC_ICMP_TYPE_" ++ py_str (_icmp_type self))
                               ++ "_CODE_" ++ fmt_int (_icmp_code self)
                        else "SVC_ICMP_TYPE_" ++ py_str (_icmp_type self))))).
Proof.
  intro Ht. unfold IcmpObject.generate_name. change recursion_limit with (S 999).
  apply (icmp_generate_name_within_explicit 999 self Ht).
Qed.

(** [generate_name] returns exactly when the stored type is truthy, and
    raises [AssertionError] otherwise ([None], or the empty string, which the
    setter takes).  The name it returns starts with [SVC_ICMP_TYPE_] and is
    left in [_name].  When the type is written in ASCII, the name is the
    upper-cased [SVC_ICMP_TYPE_<type>], followed by [_CODE_<code>] when a
    code is stored, and upper-casing it again changes nothing. *)
Theorem icmp_generated_name_shape (self : IcmpObject.t) :
  (truthy (_icmp_type self) = false ->
   IcmpObject.generate_name self
   = Raise (AssertionError "ICMP type attribute unset during name generation")) /\
  (truthy (_icmp_type self) = true ->
   exists n,
     IcmpObject.generate_name self = Ok (n, set__name self (Some n)) /\
     String.prefix "SVC_ICMP_TYPE_" n = true /\
     (isascii (py_str (_icmp_type self)) = true ->
      n = upper (if truthy_int (_icmp_code self)
                 then ("SVC_ICMP_TYPE_" ++ py_str (_icmp_type self))
                        ++ "_CODE_" ++ fmt_int (_icmp_code self)
                 else "SVC_ICMP_TYPE_" ++ py_str (_icmp_type self)) /\
      upper n = n)).
Proof.
  split.
  - apply icmp_generate_name_unset.
  - intro Ht. eexists. split; [apply (icmp_generate_name_explicit _ Ht)|].
    split.
    + destruct (truthy_int (_icmp_code self)); cbn; apply prefix_empty.
    + intros _. split; [reflexivity | apply upper_idempotent].
Qed.

Lemma icmp_generated_name_shape_witness :
  IcmpObject.generate_name (IcmpObject.mk None None (VStr ""))
  = Raise (AssertionError "ICMP type attribute unset during name generation")
  /\ exists n,
       IcmpObject.generate_name (IcmpObject.mk (Some "old") (Some 3) (VStr "Echo-Reply"))
       = Ok (n, IcmpObject.mk (Some n) (Some 3) (VStr "Echo-Reply"))
       /\ n = "SVC_ICMP_TYPE_ECHO-REPLY_CODE_3".
Proof.
  split.
  - apply (proj1 (icmp_generated_name_shape (IcmpObject.mk None None (VStr "")))).
    reflexivity.
  - destruct (proj2 (icmp_generated_name_shape
                       (IcmpObject.mk (Some "old") (Some 3) (VStr "Echo-Reply")))
                eq_refl) as (n & Hgen & _ & Hascii).
    destruct (Hascii eq_refl) as (Hn & _).
    exists n. split; [exact Hgen|]. rewrite Hn. reflexivity.
Defined.

Lemma icmp_name_raises (self : IcmpObject.t) (e : exn) :
  IcmpObject.name self = Raise e ->
  truthy_str (IcmpObject._name self) = false /\
  truthy (_icmp_type self) = false /\
  e = AssertionError "ICMP type attribute unset during name generation".
Proof.
  unfold IcmpObject.name, _ServiceObject.name, name_fget.
  change (_ServiceObject._name self) with (IcmpObject._name self).
  change (_ServiceObject.generate_name self) with (IcmpObject.generate_name self).
  destruct (truthy_str (IcmpObject._name self)); [discriminate|].
  destruct (truthy (_icmp_type self)) eqn:Ht.
  - rewrite (icmp_generate_name_explicit _ Ht). discriminate.
  - rewrite (icmp_generate_name_unset _ Ht). intro E. injection E as <-. auto.
Qed.

(** [cli_full] starts with the name.  When reading [name] raises, which it
    does only for an instance with neither a name nor a type and only with
    [AssertionError], [cli_full] raises the same before it looks at the
    attributes.  When reading [name] returns [n], [cli_definition] returns
    [object service <n>] and [cli_full] is [cli_attributes] put between that
    line and [!], so an instance with a name and no type fails in
    [cli_attributes]. *)
Theorem icmp_cli_full_composes (self : IcmpObject.t) :
  (forall e,
     IcmpObject.name self = Raise e ->
     truthy_str (IcmpObject._name self) = false /\
     truthy (_icmp_type self) = false /\
     e = AssertionError "ICMP type attribute unset during name generation" /\
     IcmpObject.cli_definition self = Raise e /\
     IcmpObject.cli_full self = Raise e) /\
  (forall n named,
     IcmpObject.name self = Ok (n, named) ->
     named = set__name self (Some n) /\
     IcmpObject.cli_definition self = Ok ("object service " ++ n, named) /\
     IcmpObject.cli_full self
     = (line <- IcmpObject.cli_attributes self ;;
        Ok (["object service " ++ n; line; "!"], named))).
Proof.
  split.
  - intros e E. destruct (icmp_name_raises _ _ E) as (Hn & Ht & He).
    repeat (split; [assumption|]).
    assert (Hdef : IcmpObject.cli_definition self = Raise e).
    { unfold IcmpObject.cli_definition, _ServiceObject.cli_definition.
      fold (IcmpObject.name self). rewrite E. reflexivity. }
    split; [exact Hdef|].
    unfold IcmpObject.cli_full, _ServiceObject.cli_full.
    fold (IcmpObject.cli_definition self). rewrite Hdef. reflexivity.
  - intros n named E. destruct (icmp_name_inv _ _ _ E) as (Hn & ->).
    split; [reflexivity|].
    assert (Hdef : IcmpObject.cli_definition self
                   = Ok ("object service " ++ n, set__name self (Some n))).
    { unfold IcmpObject.cli_definition, _ServiceObject.cli_definition.
      fold (IcmpObject.name self). rewrite E. cbn [bind fst snd].
      change (truthy (VStr n)) with (truthy_str (Some n)). rewrite Hn.
      cbn [negb bind].
      change (_ServiceObject.name (set__name self (Some n)))
        with (IcmpObject.name (set__name self (Some n))).
      rewrite (icmp_cached_name_is_returned (set__name self (Some n)) n Hn eq_refl).
      reflexivity. }
    split; [exact Hdef|].
    unfold IcmpObject.cli_full, _ServiceObject.cli_full.
    fold (IcmpObject.cli_definition self). rewrite Hdef. cbn [bind fst snd].
    reflexivity.
Qed.

Lemma icmp_cli_full_composes_witness :
  IcmpObject.cli_full (IcmpObject.mk None None VNone)
  = Raise (AssertionError "ICMP type attribute unset during name generation")
  /\ IcmpObject.cli_full (IcmpObject.mk (Some "PING") None VNone)
     = (line <- IcmpObject.cli_attributes (IcmpObject.mk (Some "PING") None VNone) ;;
        Ok (["object service PING"; line; "!"], IcmpObject.mk (Some "PING") None VNone)).
Proof.
  split.
  - destruct (proj1 (icmp_cli_full_composes (IcmpObject.mk None None VNone))
                (AssertionError "ICMP type attribute unset during name generation")
                eq_refl) as (_ & _ & _ & _ & Hfull).
    exact Hfull.
  - destruct (proj2 (icmp_cli_full_composes (IcmpObject.mk (Some "PING") None VNone))
                "PING" (IcmpObject.mk (Some "PING") None VNone) eq_refl)
      as (_ & _ & Hfull).
    exact Hfull.
Defined.

End IcmpNames.

(** ** Names across the classes *)

Section NamesAcrossClasses.

Import _ServiceObject.

(** A name that is set and not empty is used as it is: [cli_definition]
    renders it and leaves the instance untouched, for an instance of any of
    the classes, configured or not; for the service classes reading [name]
    returns it likewise. *)
Theorem explicit_name_is_used_verbatim (n : string) :
  truthy_str (Some n) = true ->
  (forall self : NetworkObject.t,
     NetworkObject.name self = Some n ->
     NetworkObject.cli_definition self = Ok ("object network " ++ n, self)) /\
  (forall self : _TcpOrUdpObject.t,
     _TcpOrUdpObject._name self = Some n ->
     _TcpOrUdpObject.name self = Ok (n, self) /\
     _TcpOrUdpObject.cli_definition self = Ok ("object service " ++ n, self)) /\
  (forall self : IcmpObject.t,
     IcmpObject._name self = Some n ->
     IcmpObject.name self = Ok (n, self) /\
     IcmpObject.cli_definition self = Ok ("object service " ++ n, self)).
Proof.
  intro Hn. repeat apply conj.
  - intros self Hname.
    unfold NetworkObject.cli_definition, NetworkObject.name_if_unset.
    rewrite Hname, Hn. cbn [negb bind]. rewrite Hname. reflexivity.
  - intros self Hname.
    pose proof (tcp_udp_cached_name_is_returned self n Hn Hname) as Hget.
    split; [exact Hget|].
    unfold _TcpOrUdpObject.cli_definition, _ServiceObject.cli_definition.
    fold (_TcpOrUdpObject.name self). rewrite Hget. cbn [bind fst snd].
    change (truthy (VStr n)) with (truthy_str (Some n)). rewrite Hn.
    cbn [negb bind]. fold (_TcpOrUdpObject.name self). rewrite Hget. reflexivity.
  - intros self Hname.
    pose proof (icmp_cached_name_is_returned self n Hn Hname) as Hget.
    split; [exact Hget|].
    unfold IcmpObject.cli_definition, _ServiceObject.cli_definition.
    fold (IcmpObject.name self). rewrite Hget. cbn [bind fst snd].
    change (truthy (VStr n)) with (truthy_str (Some n)). rewrite Hn.
    cbn [negb bind]. fold (IcmpObject.name self). rewrite Hget. reflexivity.
Qed.

Lemma explicit_name_is_used_verbatim_witness :
  NetworkObject.cli_definition (NetworkObject.mk None (Some "Stu") None None None None)
  = Ok ("object network Stu", NetworkObject.mk None (Some "Stu") None None None None)
  /\ IcmpObject.cli_definition (IcmpObject.mk (Some "Stu") None VNone)
     = Ok ("object service Stu", IcmpObject.mk (Some "Stu") None VNone).
Proof.
  split.
  - apply (proj1 (explicit_name_is_used_verbatim "Stu" eq_refl)). reflexivity.
  - apply (proj2 (proj2 (explicit_name_is_used_verbatim "Stu" eq_refl))). reflexivity.
Defined.

(** [generate_name] does not read the name the instance holds: whatever name
    was set before, the call has the same outcome, so a name set by hand is
    overwritten. *)
Theorem generate_name_overwrites_name :
  (forall (self : NetworkObject.t) (x y : option string),
     NetworkObject.generate_name (NetworkObject.set_name self x)
     = NetworkObject.generate_name (NetworkObject.set_name self y)) /\
  (forall (self : _TcpOrUdpObject.t) (x y : option string),
     _TcpOrUdpObject.generate_name (_TcpOrUdpObject.set__name self x)
     = _TcpOrUdpObject.generate_name (_TcpOrUdpObject.set__name self y)) /\
  (forall (self : IcmpObject.t) (x y : option string),
     IcmpObject.generate_name (IcmpObject.set__name self x)
     = IcmpObject.generate_name (IcmpObject.set__name self y)).
Proof.
  repeat apply conj.
  - intros self x y. unfold NetworkObject.generate_name.
    cbn [NetworkObject.type NetworkObject.ip NetworkObject.end_ip NetworkObject.fqdn
         NetworkObject.set_name].
    reflexivity.
  - intros self x y.
    destruct (tcp_udp_generate_name_total self) as (n & _ & Hgen).
    rewrite (Hgen x), (Hgen y). reflexivity.
  - intros self x y.
    destruct (truthy (IcmpObject._icmp_type self)) eqn:Ht.
    + destruct (icmp_generate_name_step 999 self Ht) as (n & _ & Hgen).
      unfold IcmpObject.generate_name. change IcmpObject.recursion_limit with (S 999).
      rewrite (Hgen x), (Hgen y). reflexivity.
    + rewrite !icmp_generate_name_unset by exact Ht. reflexivity.
Qed.

(** An empty name counts as no name: [cli_definition], and for the service
    classes [name] and [cli_full] as well, behave on an instance whose name
    is the empty string as on the same instance without a name. *)
Theorem empty_name_counts_as_unset :
  (forall self : NetworkObject.t,
     NetworkObject.cli_definition (NetworkObject.set_name self (Some ""))
     = NetworkObject.cli_definition (NetworkObject.set_name self None)) /\
  (forall self : _TcpOrUdpObject.t,
     _TcpOrUdpObject.name (_TcpOrUdpObject.set__name self (Some ""))
     = _TcpOrUdpObject.name (_TcpOrUdpObject.set__name self None) /\
     _TcpOrUdpObject.cli_definition (_TcpOrUdpObject.set__name self (Some ""))
     = _TcpOrUdpObject.cli_definition (_TcpOrUdpObject.set__name self None) /\
     _TcpOrUdpObject.cli_full (_TcpOrUdpObject.set__name self (Some ""))
     = _TcpOrUdpObject.cli_full (_TcpOrUdpObject.set__name self None)) /\
  (forall self : IcmpObject.t,
     IcmpObject.name (IcmpObject.set__name self (Some ""))
     = IcmpObject.name (IcmpObject.set__name self None) /\
     IcmpObject.cli_definition (IcmpObject.set__name self (Some ""))
     = IcmpObject.cli_definition (IcmpObject.set__name self None) /\
     IcmpObject.cli_full (IcmpObject.set__name self (Some ""))
     = IcmpObject.cli_full (IcmpObject.set__name self None)).
Proof.
  repeat apply conj.
  - intro self. unfold NetworkObject.cli_definition, NetworkObject.name_if_unset.
    cbn [NetworkObject.name NetworkObject.set_name truthy_str String.eqb negb].
    unfold NetworkObject.generate_name.
    cbn [NetworkObject.type NetworkObject.ip NetworkObject.end_ip NetworkObject.fqdn
         NetworkObject.set_name].
    reflexivity.
  - intro self.
    assert (Hname : _TcpOrUdpObject.name (_TcpOrUdpObject.set__name self (Some ""))
                    = _TcpOrUdpObject.name (_TcpOrUdpObject.set__name self None)).
    { destruct (tcp_udp_generate_name_total self) as (n & _ & Hgen).
      unfold _TcpOrUdpObject.name, _ServiceObject.name, name_fget.
      cbn [_ServiceObject._name _ServiceObject.generate_name
           _TcpOrUdpObject.subclass_of_ServiceObject
           _TcpOrUdpObject._name _TcpOrUdpObject.set__name truthy_str String.eqb negb].
      rewrite (Hgen (Some "")), (Hgen None). reflexivity. }
    assert (Hdef : _TcpOrUdpObject.cli_definition (_TcpOrUdpObject.set__name self (Some ""))
                   = _TcpOrUdpObject.cli_definition (_TcpOrUdpObject.set__name self None)).
    { unfold _TcpOrUdpObject.cli_definition, _ServiceObject.cli_definition.
      fold (_TcpOrUdpObject.name (_TcpOrUdpObject.set__name self (Some ""))).
      fold (_TcpOrUdpObject.name (_TcpOrUdpObject.set__name self None)).
      rewrite Hname. reflexivity. }
    split; [exact Hname|]. split; [exact Hdef|].
    unfold _TcpOrUdpObject.cli_full, _ServiceObject.cli_full.
    fold (_TcpOrUdpObject.cli_definition (_TcpOrUdpObject.set__name self (Some ""))).
    fold (_TcpOrUdpObject.cli_definition (_TcpOrUdpObject.set__name self None)).
    rewrite Hdef. reflexivity.
  - intro self.
    assert (Hname : IcmpObject.name (IcmpObject.set__name self (Some ""))
                    = IcmpObject.name (IcmpObject.set__name self None)).
    { unfold IcmpObject.name, _ServiceObject.name, name_fget.
      cbn [_ServiceObject._name _ServiceObject.generate_name
           IcmpObject.subclass_of_ServiceObject
           IcmpObject._name IcmpObject.set__name truthy_str String.eqb negb].
      destruct (truthy (IcmpObject._icmp_type self)) eqn:Ht.
      - destruct (icmp_generate_name_step 999 self Ht) as (n & _ & Hgen).
        unfold IcmpObject.generate_name. change IcmpObject.recursion_limit with (S 999).
        rewrite (Hgen (Some "")), (Hgen None). reflexivity.
      - rewrite !icmp_generate_name_unset by exact Ht. reflexivity. }
    assert (Hdef : IcmpObject.cli_definition (IcmpObject.set__name self (Some ""))
                   = IcmpObject.cli_definition (IcmpObject.set__name self None)).
    { unfold IcmpObject.cli_definition, _ServiceObject.cli_definition.
      fold (IcmpObject.name (IcmpObject.set__name self (Some ""))).
      fold (IcmpObject.name (IcmpObject.set__name self None)).
      rewrite Hname. reflexivity. }
    split; [exact Hname|]. split; [exact Hdef|].
    unfold IcmpObject.cli_full, _ServiceObject.cli_full.
    fold (IcmpObject.cli_definition (IcmpObject.set__name self (Some ""))).
    fold (IcmpObject.cli_definition (IcmpObject.set__name self None)).
    rewrite Hdef. reflexivity.
Qed.

Lemma network_name_tag (self self' : NetworkObject.t) (n : string) :
  NetworkObject.generate_name self = Ok (n, self') ->
  first_char n
  = match NetworkObject.type self with
    | Some NetworkObject.HOST => Some "H"%char
    | Some NetworkObject.NETWORK => Some "N"%char
    | Some NetworkObject.RANGE => Some "R"%char
    | Some NetworkObject.FQDN => Some "F"%char
    | None => None
    end.
Proof.
  unfold NetworkObject.generate_name.
  destruct (NetworkObject.type self) as [[]|]; [| | | |discriminate];
    intro E; repeat bind_inv E; apply Ok_pair_inj in E; destruct E as [<- _];
    reflexivity.
Qed.

Lemma tcp_udp_name_tag (self self' : _TcpOrUdpObject.t) (n : string) :
  _TcpOrUdpObject.generate_name self = Ok (n, self') ->
  String.get 4 n
  = Some (match _TcpOrUdpObject.cls self with
          | _TcpOrUdpObject.TcpObject => "T"%char
          | _TcpOrUdpObject.UdpObject => "U"%char
          end).
Proof.
  unfold _TcpOrUdpObject.generate_name. intro E.
  apply Ok_pair_inj in E. destruct E as [<- _].
  destruct (_TcpOrUdpObject.cls self),
    (_TcpOrUdpObject.source_port_selecter_type self) as [[]|],
    (_TcpOrUdpObject.dest_port_selecter_type self) as [[]|]; reflexivity.
Qed.

Lemma icmp_name_tag (self self' : IcmpObject.t) (n : string) :
  IcmpObject.generate_name self = Ok (n, self') -> String.get 4 n = Some "I"%char.
Proof.
  intro E. destruct (truthy (IcmpObject._icmp_type self)) eqn:Ht.
  - rewrite (icmp_generate_name_explicit _ Ht) in E.
    apply Ok_pair_inj in E. destruct E as [<- _].
    destruct (truthy_int (IcmpObject._icmp_code self)); reflexivity.
  - rewrite (icmp_generate_name_unset _ Ht) in E. discriminate E.
Qed.

(** Generated names tell the kinds apart: two network objects of different
    types never get the same generated name, and no two of a TCP object, a
    UDP object and an ICMP object do. *)
Theorem generated_names_tell_kinds_apart :
  (forall (a b a' b' : NetworkObject.t) (na nb : string),
     NetworkObject.generate_name a = Ok (na, a') ->
     NetworkObject.generate_name b = Ok (nb, b') ->
     NetworkObject.type a <> NetworkObject.type b ->
     na <> nb) /\
  (forall (a b a' b' : _TcpOrUdpObject.t) (na nb : string),
     _TcpOrUdpObject.generate_name a = Ok (na, a') ->
     _TcpOrUdpObject.generate_name b = Ok (nb, b') ->
     _TcpOrUdpObject.cls a <> _TcpOrUdpObject.cls b ->
     na <> nb) /\
  (forall (a a' : _TcpOrUdpObject.t) (b b' : IcmpObject.t) (na nb : string),
     _TcpOrUdpObject.generate_name a = Ok (na, a') ->
     IcmpObject.generate_name b = Ok (nb, b') ->
     na <> nb).
Proof.
  repeat apply conj.
  - intros a b a' b' na nb Ha Hb Hty Heq.
    apply network_name_tag in Ha. apply network_name_tag in Hb.
    rewrite Heq in Ha. rewrite Ha in Hb.
    destruct (NetworkObject.type a) as [[]|], (NetworkObject.type b) as [[]|];
      try discriminate Hb; now elim Hty.
  - intros a b a' b' na nb Ha Hb Hcls Heq.
    apply tcp_udp_name_tag in Ha. apply tcp_udp_name_tag in Hb.
    rewrite Heq in Ha. rewrite Ha in Hb.
    destruct (_TcpOrUdpObject.cls a), (_TcpOrUdpObject.cls b);
      try discriminate Hb; now elim Hcls.
  - intros a a' b b' na nb Ha Hb Heq.
    apply tcp_udp_name_tag in Ha. apply icmp_name_tag in Hb.
    rewrite Heq in Ha. rewrite Ha in Hb.
    destruct (_TcpOrUdpObject.cls a); discriminate Hb.
Qed.

Lemma generated_names_tell_kinds_apart_witness :
  "SVC_TCP_DEST_EQ_443" <> "SVC_UDP_DEST_EQ_443".
Proof.
  apply (proj1 (proj2 generated_names_tell_kinds_apart)
           (_TcpOrUdpObject.mk _TcpOrUdpObject.TcpObject None None None None
              (Some SINGLE) (Some 443) None)
           (_TcpOrUdpObject.mk _TcpOrUdpObject.UdpObject None None None None
              (Some SINGLE) (Some 443) None)
           (_TcpOrUdpObject.mk _TcpOrUdpObject.TcpObject (Some "SVC_TCP_DEST_EQ_443")
              None None None (Some SINGLE) (Some 443) None)
           (_TcpOrUdpObject.mk _TcpOrUdpObject.UdpObject (Some "SVC_UDP_DEST_EQ_443")
              None None None (Some SINGLE) (Some 443) None)).
  - reflexivity.
  - reflexivity.
  - discriminate.
Defined.

End NamesAcrossClasses.

(** ** Construction and rendering of NetworkObject *)

Section NetworkObjectConstruction.

Import ipaddress NetworkObject.

Lemma split_length_pos (sep : ascii) (s : string) : (1 <= length (split sep s))%nat.
Proof.
  induction s as [|c s IH]; simpl; [lia|].
  destruct (Ascii.eqb c sep); simpl; [lia|].
  destruct (split sep s); simpl in *; lia.
Qed.

Lemma split_length_cons (sep c : ascii) (s : string) :
  length (split sep (String c s))
  = if Ascii.eqb c sep then S (length (split sep s)) else length (split sep s).
Proof.
  simpl. destruct (Ascii.eqb c sep); [reflexivity|].
  pose proof (split_length_pos sep s) as Hpos.
  destruct (split sep s); simpl in *; [lia | reflexivity].
Qed.

Lemma split_length_contains (sep : ascii) (s : string) :
  contains_char sep s = true -> (2 <= length (split sep s))%nat.
Proof.
  induction s as [|c s IH]; [discriminate|].
  rewrite split_length_cons. cbn [contains_char]. intro H.
  pose proof (split_length_pos sep s) as Hpos.
  destruct (Ascii.eqb c sep); [lia|]. cbn [orb] in H. exact (IH H).
Qed.

Lemma split_length_append (sep : ascii) (a b : string) :
  length (split sep (a ++ String sep b))
  = (length (split sep a) + length (split sep b))%nat.
Proof.
  induction a as [|c a IH].
  - change ("" ++ String sep b) with (String sep b).
    rewrite split_length_cons, Ascii.eqb_refl. reflexivity.
  - change (String c a ++ String sep b) with (String c (a ++ String sep b)).
    rewrite !split_length_cons, IH. destruct (Ascii.eqb c sep); reflexivity.
Qed.

Lemma network_of_three_parts (s : string) :
  (3 <= length (split "/" s))%nat -> IPv4Network (VStr s) = Raise AddressValueError.
Proof.
  unfold IPv4Network. cbn [py_str].
  destruct (split "/" s) as [|p1 [|p2 [|p3 rest]]]; simpl; intro H; try lia.
  reflexivity.
Qed.

(** An address that already carries a [/] cannot be combined with a netmask
    or a CIDR: the string handed to [IPv4Network] then holds two [/], and
    [init_host_or_net_object] raises [AddressValueError], as does the
    constructor for a host or a network. *)
Theorem address_with_prefix_and_mask_is_refused
    (self : NetworkObject.t) (ip netmask CIDR : pyval) :
  contains_char "/" (py_str ip) = true ->
  truthy netmask = true \/ truthy CIDR = true ->
  init_host_or_net_object self ip netmask CIDR = Raise AddressValueError /\
  forall description name fqdn end_ip,
    NetworkObject.__init__ (Some HOST) ip netmask description CIDR name fqdn end_ip
    = Raise AddressValueError /\
    NetworkObject.__init__ (Some NETWORK) ip netmask description CIDR name fqdn end_ip
    = Raise AddressValueError.
Proof.
  intros Hslash Hmask.
  assert (Hconv : convert_supplied ip netmask CIDR = Raise AddressValueError).
  { unfold convert_supplied.
    assert (Hthree : forall m,
              IPv4Network (VStr (py_str ip ++ "/" ++ m)) = Raise AddressValueError).
    { intro m. apply network_of_three_parts.
      change (py_str ip ++ "/" ++ m) with (py_str ip ++ String "/" m).
      rewrite split_length_append.
      pose proof (split_length_contains _ _ Hslash).
      pose proof (split_length_pos "/" m). lia. }
    destruct (truthy netmask); [apply Hthree|].
    destruct Hmask as [Hm|Hc]; [discriminate Hm|]. rewrite Hc. apply Hthree. }
  split.
  - unfold init_host_or_net_object. rewrite Hconv. reflexivity.
  - intros description name fqdn end_ip.
    unfold NetworkObject.__init__, init_host_or_net_object.
    cbn [NetworkObject.type]. rewrite Hconv. split; reflexivity.
Qed.

Lemma address_with_prefix_and_mask_is_refused_witness :
  NetworkObject.__init__ (Some NETWORK) (VStr "10.1.1.0/24") VNone None (VInt 24)
    None VNone VNone
  = Raise AddressValueError.
Proof.
  apply (proj2 (address_with_prefix_and_mask_is_refused
                  (NetworkObject.mk None None None None None None)
                  (VStr "10.1.1.0/24") VNone (VInt 24) eq_refl (or_intror eq_refl))
           None None VNone VNone).
Defined.

(** How the mask is chosen: a netmask that is truthy wins, the CIDR is then
    not looked at; a netmask and a CIDR that are both falsy ([None], the
    empty string, the integer 0) are both ignored, so in particular
    [CIDR=0] does not ask for a /0 network: an address without [/] then
    becomes a HOST of prefix length 32. *)
Theorem mask_argument_selection
    (self : NetworkObject.t) (ip netmask CIDR : pyval) :
  (truthy netmask = true ->
   init_host_or_net_object self ip netmask CIDR
   = init_host_or_net_object self ip netmask VNone) /\
  (truthy netmask = false -> truthy CIDR = false ->
   init_host_or_net_object self ip netmask CIDR
   = init_host_or_net_object self ip VNone VNone /\
   forall net self',
     contains_char "/" (py_str ip) = false ->
     init_host_or_net_object self ip netmask CIDR = Ok (net, self') ->
     prefixlen net = 32 /\ type self' = Some HOST).
Proof.
  split.
  - intro Hm. unfold init_host_or_net_object, convert_supplied. rewrite Hm. reflexivity.
  - intros Hm Hc.
    assert (Hconv : convert_supplied ip netmask CIDR = IPv4Network ip).
    { unfold convert_supplied. rewrite Hm, Hc. reflexivity. }
    split.
    + unfold init_host_or_net_object. rewrite Hconv. reflexivity.
    + intros net self' Hslash E.
      assert (Hnet : convert_supplied ip netmask CIDR = Ok net).
      { unfold init_host_or_net_object in E.
        destruct (convert_supplied ip netmask CIDR) as [net0|e] eqn:Hc0;
          [|discriminate E].
        cbn [bind] in E. bind_inv E. apply Ok_pair_inj in E.
        destruct E as [-> _]. reflexivity. }
      destruct (init_host_or_net_object_returns self ip netmask CIDR net Hnet)
        as (self0 & Hinit & _ & Hty).
      rewrite Hinit in E. apply Ok_pair_inj in E. destruct E as [_ <-].
      rewrite Hconv in Hnet.
      pose proof (network_without_slash_is_host _ _ Hnet Hslash) as H32.
      split; [exact H32|]. rewrite Hty, H32. reflexivity.
Qed.

Lemma mask_argument_selection_witness :
  exists self',
    init_host_or_net_object (NetworkObject.mk None None (Some NETWORK) None None None)
      (VStr "0.0.0.0") (VStr "") (VInt 0)
    = Ok (mkIPv4Network 0 32, self')
    /\ type self' = Some HOST.
Proof.
  eexists. split; [reflexivity|].
  apply (proj2 (proj2 (mask_argument_selection
                         (NetworkObject.mk None None (Some NETWORK) None None None)
                         (VStr "0.0.0.0") (VStr "") (VInt 0))
                  eq_refl eq_refl)
           (mkIPv4Network 0 32) _ eq_refl eq_refl).
Defined.

End NetworkObjectConstruction.

(** ** What the initializers of NetworkObject leave behind *)

Section NetworkObjectInitializers.

Import ipaddress NetworkObject.

Lemma first_char_truthy (n : string) (c : ascii) :
  first_char n = Some c -> truthy_str (Some n) = true.
Proof. destruct n; [discriminate | reflexivity]. Qed.

Lemma name_if_unset_inv (self self' : NetworkObject.t) :
  name_if_unset self = Ok self' ->
  truthy_str (name self') = true /\
  (truthy_str (name self) = true -> self' = self) /\
  (truthy_str (name self) = false ->
   exists n, generate_name self = Ok (n, self') /\ name self' = Some n) /\
  description self' = description self /\ type self' = type self /\
  ip self' = ip self /\ end_ip self' = end_ip self /\ fqdn self' = fqdn self.
Proof.
  unfold name_if_unset. destruct (truthy_str (name self)) eqn:Ht; cbn [negb].
  - intro E. apply Ok_inj in E. subst self'.
    split; [exact Ht|]. split; [reflexivity|]. split; [discriminate|]. auto 10.
  - intro E. bind_inv E. apply Ok_inj in E. destruct x as [n s]. cbn [snd] in E.
    subst s. pose proof (network_name_tag _ _ _ Hstep) as Htag.
    destruct (network_generate_name_inv _ _ _ Hstep) as (-> & _).
    split.
    { cbn [name set_name].
      destruct (type self) as [[]|] eqn:Hty;
        try (eapply first_char_truthy; exact Htag).
      unfold generate_name in Hstep. rewrite Hty in Hstep. discriminate Hstep. }
    split; [discriminate|]. split; [|cbn; auto 10].
    intros _. exists n. split; [exact Hstep | reflexivity].
Qed.

Lemma named_object_cli_definition (self : NetworkObject.t) :
  truthy_str (name self) = true ->
  cli_definition self = Ok ("object network " ++ fmt_str (name self), self).
Proof.
  intro Ht. unfold cli_definition, name_if_unset. rewrite Ht. reflexivity.
Qed.

(** [init_range_object] takes any two addresses that parse, in any order
    and in any notation [IPv4Network] accepts: it compares neither the two
    addresses nor their prefix lengths.  The instance becomes a RANGE that
    renders [ range <start> <end>], named [RANGE_<start>-<end>] unless it
    had a name; when the start does not parse, the error is raised before
    the end is looked at. *)
Theorem range_object_takes_any_two_networks
    (self : NetworkObject.t) (ip end_ip : pyval) (a b : IPv4Network_t) :
  IPv4Network ip = Ok a ->
  IPv4Network end_ip = Ok b ->
  exists self',
    init_range_object self ip end_ip = Ok self' /\
    type self' = Some RANGE /\
    NetworkObject.ip self' = Some a /\ NetworkObject.end_ip self' = Some b /\
    cli_attributes self'
    = Ok (" range " ++ str_of_address (network_address a)
                    ++ " " ++ str_of_address (network_address b)) /\
    name self'
    = (if truthy_str (name self) then name self
       else Some ("RANGE_" ++ str_of_address (network_address a)
                           ++ "-" ++ str_of_address (network_address b))) /\
    forall e other, IPv4Network other = Raise e ->
                    init_range_object self other end_ip = Raise e.
Proof.
  intros Ha Hb. unfold init_range_object. rewrite Ha, Hb. cbn [bind].
  set (typed := set_type (set_end_ip (set_ip self a) b) (Some RANGE)).
  assert (Hname : name_if_unset typed
                  = Ok (if truthy_str (name self) then typed
                        else set_name typed
                               (Some ("RANGE_" ++ str_of_address (network_address a)
                                        ++ "-" ++ str_of_address (network_address b))))).
  { unfold name_if_unset. change (name typed) with (name self).
    destruct (truthy_str (name self)); reflexivity. }
  rewrite Hname. eexists. split; [reflexivity|].
  destruct (truthy_str (name self)); repeat split;
    intros e other He; rewrite He; reflexivity.
Qed.

Lemma range_object_takes_any_two_networks_witness :
  exists self',
    init_range_object (NetworkObject.mk None None None None None None)
      (VStr "10.1.1.9") (VStr "10.1.0.0/16") = Ok self' /\
    cli_attributes self' = Ok " range 10.1.1.9 10.1.0.0" /\
    name self' = Some "RANGE_10.1.1.9-10.1.0.0".
Proof.
  destruct (range_object_takes_any_two_networks
              (NetworkObject.mk None None None None None None)
              (VStr "10.1.1.9") (VStr "10.1.0.0/16")
              (mkIPv4Network 167837961 32) (mkIPv4Network 167837696 16)
              eq_refl eq_refl)
    as (self' & Hinit & _ & _ & _ & Hcli & Hname & _).
  exists self'. split; [exact Hinit|]. split; [exact Hcli | exact Hname].
Defined.

(** [init_fqdn_object] never raises and checks nothing: whatever value it is
    given, [None] included, the instance becomes an FQDN object that renders
    [ fqdn <str(value)>], named [FQDN_<str(value)>] unless it had a name. *)
Theorem fqdn_object_takes_any_value (self : NetworkObject.t) (value : pyval) :
  exists self',
    init_fqdn_object self value = Ok self' /\
    type self' = Some FQDN /\
    fqdn self' = Some value /\
    cli_attributes self' = Ok (" fqdn " ++ py_str value) /\
    name self'
    = (if truthy_str (name self) then name self else Some ("FQDN_" ++ py_str value)).
Proof.
  unfold init_fqdn_object, name_if_unset.
  change (name (set_type (set_fqdn self value) (Some FQDN))) with (name self).
  destruct (truthy_str (name self)); eexists; repeat split.
Qed.

(** Without a type the constructor stores the description and the name and
    looks at no other argument, malformed addresses included; such an
    instance raises [ValueError] from [cli_attributes] and from
    [generate_name], from [cli_definition] too unless it has a name, and
    [AttributeError] from [netmask]. *)
Theorem untyped_object_is_inert
    (ip netmask CIDR fqdn end_ip : pyval) (description name : option string) :
  NetworkObject.__init__ None ip netmask description CIDR name fqdn end_ip
  = Ok (NetworkObject.mk description name None None None None) /\
  cli_attributes (NetworkObject.mk description name None None None None)
  = Raise (ValueError "No value set for object type.") /\
  generate_name (NetworkObject.mk description name None None None None)
  = Raise (ValueError "NetworkObject not set to type when generating name.") /\
  cli_definition (NetworkObject.mk description name None None None None)
  = (if truthy_str name
     then Ok ("object network " ++ fmt_str name,
              NetworkObject.mk description name None None None None)
     else Raise (ValueError "NetworkObject not set to type when generating name.")) /\
  NetworkObject.netmask (NetworkObject.mk description name None None None None)
  = Raise (AttributeError "ip").
Proof.
  repeat split.
  unfold cli_definition, name_if_unset. cbn [NetworkObject.name].
  destruct (truthy_str name); reflexivity.
Qed.

(** [cli_full] never raises, not even for an instance that cannot be
    rendered: it returns three elements, or four when the description is set
    and not empty, the third being then [ description <text>]; the last
    element is always the string [!]. *)
Theorem network_cli_full_shape (self : NetworkObject.t) :
  (truthy_str (description self) = false ->
   cli_full self = [BoundMethod m_cli_definition; BoundMethod m_cli_attributes; Str "!"]) /\
  (forall text,
     description self = Some text -> text <> "" ->
     cli_full self = [BoundMethod m_cli_definition; BoundMethod m_cli_attributes;
                      Str (" description " ++ text); Str "!"]) /\
  last (cli_full self) (Str "") = Str "!".
Proof.
  repeat apply conj.
  - intro H. unfold cli_full. rewrite H. reflexivity.
  - intros text Hd Hne. unfold cli_full. rewrite Hd. cbn [truthy_str fmt_str].
    destruct (String.eqb_spec text ""); [contradiction | reflexivity].
  - apply cli_full_ends_with_bang.
Qed.

Lemma network_cli_full_shape_witness :
  cli_full (NetworkObject.mk (Some "core router") None None None None None)
  = [BoundMethod m_cli_definition; BoundMethod m_cli_attributes;
     Str " description core router"; Str "!"].
Proof.
  apply (proj1 (proj2 (network_cli_full_shape
                         (NetworkObject.mk (Some "core router") None None None None None)))
           "core router" eq_refl).
  discriminate.
Defined.

End NetworkObjectInitializers.

(** ** What the constructor of NetworkObject guarantees *)

Section NetworkObjectConstructor.

Import ipaddress NetworkObject.

Lemma configured_object_renders (self : NetworkObject.t) :
  populated_for_type self -> type self <> None ->
  exists line, cli_attributes self = Ok line.
Proof.
  unfold populated_for_type, cli_attributes.
  destruct (type self) as [[]|]; intros (Hip & Hend & Hfqdn) Hty;
    try (now elim Hty).
  - destruct (ip self); [|now elim Hip]. destruct (end_ip self); [|now elim Hend].
    eexists; reflexivity.
  - destruct (ip self); [|now elim Hip]. eexists; reflexivity.
  - destruct (ip self); [|now elim Hip]. eexists; reflexivity.
  - destruct (fqdn self); [|now elim Hfqdn]. eexists; reflexivity.
Qed.

Lemma constructed_host_or_network
    (requested : ObjectType) (ip netmask CIDR fqdn end_ip : pyval)
    (description name : option string) (self : NetworkObject.t) :
  requested = HOST \/ requested = NETWORK ->
  NetworkObject.__init__ (Some requested) ip netmask description CIDR name fqdn end_ip
  = Ok self ->
  exists net,
    convert_supplied ip netmask CIDR = Ok net /\
    NetworkObject.ip self = Some net /\
    NetworkObject.end_ip self = None /\ NetworkObject.fqdn self = None /\
    type self = Some (if prefixlen net =? 32 then HOST else NETWORK) /\
    NetworkObject.description self = description /\
    truthy_str (NetworkObject.name self) = true.
Proof.
  intros Hreq E.
  assert (E' : (r <- init_host_or_net_object
                       (NetworkObject.mk description name (Some requested) None None None)
                       ip netmask CIDR ;; Ok (snd r)) = Ok self).
  { destruct Hreq as [-> | ->]; exact E. }
  clear E. bind_inv E'. apply Ok_inj in E'. destruct x as [net s]. cbn [snd] in E'.
  subst s. unfold init_host_or_net_object in Hstep.
  destruct (convert_supplied ip netmask CIDR) as [net0|e] eqn:Hconv;
    [|discriminate Hstep].
  cbn [bind] in Hstep. bind_inv Hstep. apply Ok_pair_inj in Hstep.
  destruct Hstep as [-> ->].
  destruct (name_if_unset_inv _ _ Hstep0) as (Hn & _ & _ & Hd & Hty & Hip & Hend & Hfq).
  exists net. split; [reflexivity|].
  rewrite Hty, Hip, Hend, Hfq, Hd.
  destruct (prefixlen net =? 32); cbn; auto 10.
Qed.

(** Whatever the constructor returns is consistent: the attributes that
    hold a value are exactly those of its type ([ip] for a host or a
    network, [ip] and [end_ip] for a range, [fqdn] for a domain name, none
    without a type) and hold what the arguments parse to; a requested RANGE
    or FQDN is kept, whereas for a requested HOST or NETWORK the type is
    HOST when the prefix length of the parsed network is 32 and NETWORK when
    it is not; the description is stored as given; and an instance with a
    type has a non-empty name and renders, both [cli_definition], which
    leaves it unchanged, and [cli_attributes] returning a line. *)
Theorem constructed_network_object_is_consistent
    (ob_type : option ObjectType) (ip netmask CIDR fqdn end_ip : pyval)
    (description name : option string) (self : NetworkObject.t) :
  NetworkObject.__init__ ob_type ip netmask description CIDR name fqdn end_ip = Ok self ->
  populated_for_type self /\
  NetworkObject.description self = description /\
  match ob_type with
  | None => type self = None /\ NetworkObject.name self = name
  | Some RANGE =>
      type self = Some RANGE /\
      exists first last,
        IPv4Network ip = Ok first /\ IPv4Network end_ip = Ok last /\
        NetworkObject.ip self = Some first /\ NetworkObject.end_ip self = Some last
  | Some FQDN => type self = Some FQDN /\ NetworkObject.fqdn self = Some fqdn
  | Some _ =>
      exists net,
        convert_supplied ip netmask CIDR = Ok net /\
        NetworkObject.ip self = Some net /\
        type self = Some (if prefixlen net =? 32 then HOST else NETWORK)
  end /\
  (ob_type <> None ->
   truthy_str (NetworkObject.name self) = true /\
   cli_definition self = Ok ("object network " ++ fmt_str (NetworkObject.name self), self) /\
   exists line, cli_attributes self = Ok line).
Proof.
  intro E.
  assert (Hmain : populated_for_type self /\
                  NetworkObject.description self = description /\
                  match ob_type with
                  | None => type self = None /\ NetworkObject.name self = name
                  | Some RANGE =>
                      type self = Some RANGE /\
                      exists first last,
                        IPv4Network ip = Ok first /\ IPv4Network end_ip = Ok last /\
                        NetworkObject.ip self = Some first /\
                        NetworkObject.end_ip self = Some last
                  | Some FQDN =>
                      type self = Some FQDN /\ NetworkObject.fqdn self = Some fqdn
                  | Some _ =>
                      exists net,
                        convert_supplied ip netmask CIDR = Ok net /\
                        NetworkObject.ip self = Some net /\
                        type self = Some (if prefixlen net =? 32 then HOST else NETWORK)
                  end /\
                  (ob_type <> None -> truthy_str (NetworkObject.name self) = true) /\
                  (ob_type <> None -> type self <> None)).
  { destruct ob_type as [[]|].
    - (* RANGE *)
      unfold NetworkObject.__init__ in E. cbn [type] in E.
      unfold init_range_object in E.
      destruct (IPv4Network ip) as [first|e1] eqn:H1; [|discriminate E].
      cbn [bind] in E.
      destruct (IPv4Network end_ip) as [last|e2] eqn:H2; [|discriminate E].
      cbn [bind] in E.
      destruct (name_if_unset_inv _ _ E) as (Hn & _ & _ & Hd & Hty & Hip & Hend & Hfq).
      cbn in Hd, Hty, Hip, Hend, Hfq.
      unfold populated_for_type. rewrite Hty, Hip, Hend, Hfq.
      split; [repeat split; discriminate|]. split; [exact Hd|].
      split; [split; [reflexivity|]; exists first, last; auto|].
      split; [intros _; exact Hn | intros _; discriminate].
    - (* HOST *)
      destruct (constructed_host_or_network HOST ip netmask CIDR fqdn end_ip
                  description name self (or_introl eq_refl) E)
        as (net & Hconv & Hip & Hend & Hfq & Hty & Hd & Hn).
      unfold populated_for_type. rewrite Hty, Hip, Hend, Hfq.
      split; [destruct (prefixlen net =? 32); repeat split; discriminate|].
      split; [exact Hd|].
      split; [exists net; rewrite <- Hty; auto|].
      split; [intros _; exact Hn | intros _; discriminate].
    - (* NETWORK *)
      destruct (constructed_host_or_network NETWORK ip netmask CIDR fqdn end_ip
                  description name self (or_intror eq_refl) E)
        as (net & Hconv & Hip & Hend & Hfq & Hty & Hd & Hn).
      unfold populated_for_type. rewrite Hty, Hip, Hend, Hfq.
      split; [destruct (prefixlen net =? 32); repeat split; discriminate|].
      split; [exact Hd|].
      split; [exists net; rewrite <- Hty; auto|].
      split; [intros _; exact Hn | intros _; discriminate].
    - (* FQDN *)
      unfold NetworkObject.__init__ in E. cbn [type] in E.
      unfold init_fqdn_object in E.
      destruct (name_if_unset_inv _ _ E) as (Hn & _ & _ & Hd & Hty & Hip & Hend & Hfq).
      cbn in Hd, Hty, Hip, Hend, Hfq.
      unfold populated_for_type. rewrite Hty, Hip, Hend, Hfq.
      split; [repeat split; discriminate|]. split; [exact Hd|].
      split; [split; reflexivity|].
      split; [intros _; exact Hn | intros _; discriminate].
    - unfold NetworkObject.__init__ in E. cbn [type] in E.
      apply Ok_inj in E. subst self. unfold populated_for_type. cbn.
      repeat split; intro H; now elim H. }
  destruct Hmain as (Hpop & Hd & Hty & Hn & Htyped).
  repeat (split; [assumption|]).
  intro Hob. specialize (Hn Hob). split; [exact Hn|].
  split; [apply named_object_cli_definition; exact Hn|].
  apply configured_object_renders; [exact Hpop | exact (Htyped Hob)].
Qed.

Lemma constructed_network_object_is_consistent_witness :
  (exists net,
     convert_supplied (VStr "192.168.0.0") (VStr "255.255.0.0") VNone = Ok net /\
     NetworkObject.ip
       (NetworkObject.mk None (Some "NET_192.168.0.0_16") (Some NETWORK)
          (Some (mkIPv4Network 3232235520 16)) None None) = Some net /\
     Some NETWORK = Some (if prefixlen net =? 32 then HOST else NETWORK))
  /\ cli_definition
       (NetworkObject.mk (Some "lab") (Some "FQDN_example.org") (Some FQDN)
          None None (Some (VStr "example.org")))
     = Ok ("object network FQDN_example.org",
           NetworkObject.mk (Some "lab") (Some "FQDN_example.org") (Some FQDN)
             None None (Some (VStr "example.org"))).
Proof.
  split.
  - destruct (constructed_network_object_is_consistent
                (Some HOST) (VStr "192.168.0.0") (VStr "255.255.0.0") VNone VNone VNone
                None None
                (NetworkObject.mk None (Some "NET_192.168.0.0_16") (Some NETWORK)
                   (Some (mkIPv4Network 3232235520 16)) None None)
                eq_refl)
      as (_ & _ & Hty & _).
    exact Hty.
  - destruct (constructed_network_object_is_consistent
                (Some FQDN) (VStr "not an address") VNone VNone (VStr "example.org") VNone
                (Some "lab") None
                (NetworkObject.mk (Some "lab") (Some "FQDN_example.org") (Some FQDN)
                   None None (Some (VStr "example.org")))
                eq_refl)
      as (_ & _ & _ & Hrender).
    destruct (Hrender ltac:(discriminate)) as (_ & Hdef & _). exact Hdef.
Defined.

End NetworkObjectConstructor.

(** ** When a TcpObject or a UdpObject renders *)

Section TcpOrUdpReadiness.

Import _ServiceObject _TcpOrUdpObject.

Lemma source_clause_ready (self : _TcpOrUdpObject.t) :
  (source_ready self = true -> exists text, source_clause self = Ok text) /\
  (source_ready self = false -> exists msg, source_clause self = Raise (AssertionError msg)).
Proof.
  unfold source_ready, source_clause.
  cbn [fget source_port source_end_port setter property_of].
  unfold source_port_fget, source_end_port_fget.
  destruct (source_port_selecter_type self) as [[]|];
    split; intro H; try discriminate H; try rewrite H;
    eexists; reflexivity.
Qed.

Lemma dest_clause_ready (self : _TcpOrUdpObject.t) :
  (dest_ready self = true -> exists text, dest_clause self = Ok text) /\
  (dest_ready self = false -> exists msg, dest_clause self = Raise (AssertionError msg)).
Proof.
  unfold dest_ready, dest_clause.
  cbn [fget dest_port dest_end_port setter property_of].
  unfold dest_port_fget.
  destruct (dest_port_selecter_type self) as [[]|];
    split; intro H; try discriminate H; try rewrite H;
    try (eexists; reflexivity);
    cbn [andb py_assert bind]; eexists; reflexivity.
Qed.

(** [cli_attributes] returns a line exactly when every side that has a
    selector has its ports: a truthy start port, and for a source RANGE a
    truthy end port as well (the stored destination end port plays no part).
    Otherwise it raises [AssertionError].  A side without a selector is left
    out whatever its ports hold: with no selector at all the line is
    [service tcp] or [service udp]. *)
Theorem tcp_udp_attributes_render_exactly (self : _TcpOrUdpObject.t) :
  (source_ready self && dest_ready self = true ->
   exists line, _TcpOrUdpObject.cli_attributes self = Ok line) /\
  (source_ready self && dest_ready self = false ->
   exists msg, _TcpOrUdpObject.cli_attributes self = Raise (AssertionError msg)) /\
  (source_port_selecter_type self = None -> dest_port_selecter_type self = None ->
   _TcpOrUdpObject.cli_attributes self = Ok ("service " ++ _OBJECT_TYPE (cls self))).
Proof.
  unfold _TcpOrUdpObject.cli_attributes.
  rewrite !selecter_valid_true. cbn [py_assert bind].
  destruct (source_clause_ready self) as (Hs1 & Hs0).
  destruct (dest_clause_ready self) as (Hd1 & Hd0).
  repeat apply conj.
  - intro H. apply andb_true_iff in H. destruct H as (Hs & Hd).
    destruct (Hs1 Hs) as (source & ->). destruct (Hd1 Hd) as (dest & ->).
    eexists. reflexivity.
  - intro H. apply andb_false_iff in H.
    destruct (source_ready self) eqn:Hs.
    + destruct (Hs1 eq_refl) as (source & ->). cbn [bind].
      destruct H as [H|H]; [discriminate H|].
      destruct (Hd0 H) as (msg & ->). exists msg. reflexivity.
    + destruct (Hs0 eq_refl) as (msg & ->). exists msg. reflexivity.
  - intros Hs Hd. unfold source_clause, dest_clause. rewrite Hs, Hd.
    cbn [bind]. destruct (cls self); reflexivity.
Qed.

Lemma tcp_udp_attributes_render_exactly_witness :
  (exists line,
     _TcpOrUdpObject.cli_attributes
       (_TcpOrUdpObject.mk TcpObject None (Some RANGE) (Some 1024) (Some 2048)
          (Some RANGE) (Some 80) None) = Ok line) /\
  (exists msg,
     _TcpOrUdpObject.cli_attributes
       (_TcpOrUdpObject.mk TcpObject None (Some RANGE) (Some 1024) None
          None None None) = Raise (AssertionError msg)) /\
  _TcpOrUdpObject.cli_attributes
    (_TcpOrUdpObject.mk UdpObject None None (Some 53) None None (Some 53) None)
  = Ok "service udp".
Proof.
  repeat apply conj.
  - apply (proj1 (tcp_udp_attributes_render_exactly
                    (_TcpOrUdpObject.mk TcpObject None (Some RANGE) (Some 1024) (Some 2048)
                       (Some RANGE) (Some 80) None))).
    reflexivity.
  - apply (proj1 (proj2 (tcp_udp_attributes_render_exactly
                    (_TcpOrUdpObject.mk TcpObject None (Some RANGE) (Some 1024) None
                       None None None)))).
    reflexivity.
  - apply (proj2 (proj2 (tcp_udp_attributes_render_exactly
                    (_TcpOrUdpObject.mk UdpObject None None (Some 53) None None
                       (Some 53) None)))); reflexivity.
Defined.

End TcpOrUdpReadiness.
